(** * HttpSpacePrimitives: the HTTP binding of the space primitives

    A shallow embedding of [common/spaces/http_space_primitives.ts] and of the
    JavaScript and Fetch primitives it calls, followed by the properties the
    specification states about it.

    Conventions.
    - A JavaScript string is a [string]: every character is one code unit
      below 256.  Header values handed out by Fetch are of that form, and
      [btoa] is defined on exactly those strings.
    - A [Uint8Array] or [ArrayBuffer] content is a [list byte].
    - An [async] method is a computation in the monad [M]: it appends the
      side effects it performs to a trace and ends with a value or with the
      exception it throws (a rejected promise). *)

From Stdlib Require Import ZArith List String Ascii Strings.Byte Lia Bool.
From stdpp Require Import base option gmap strings.

Open Scope Z_scope.

(** ** JavaScript primitives *)

Module Js.

(** Exceptions, by constructor name and message. *)
Inductive exn : Type :=
| Error (message : string)
| ReferenceError (message : string)
| TypeError (message : string)
| InvalidCharacterError (message : string).

(** *** Strings *)

Definition code (c : ascii) : Z := Z.of_N (N_of_ascii c).

Definition chr (z : Z) : ascii := ascii_of_N (Z.to_N z).

Definition chars (s : string) : list ascii := list_ascii_of_string s.

Definition str (l : list ascii) : string := string_of_list_ascii l.

(** ToBoolean on a string: only the empty string is falsy. *)
Definition truthy_string (s : string) : bool :=
  match s with
  | EmptyString => false
  | String _ _ => true
  end.

(** ToBoolean on an optional string ([undefined] and [null] are falsy). *)
Definition truthy (o : option string) : bool :=
  match o with
  | Some s => truthy_string s
  | None => false
  end.

(** [a || b] where [a] is a string or null and [b] a string. *)
Definition or_else (a : option string) (b : string) : string :=
  match a with
  | Some s => if truthy_string s then s else b
  | None => b
  end.

Definition in_range (lo hi : Z) (c : ascii) : bool :=
  (lo <=? code c) && (code c <=? hi).

Definition is_digit : ascii -> bool := in_range 48 57.
Definition is_upper : ascii -> bool := in_range 65 90.
Definition is_lower : ascii -> bool := in_range 97 122.

(** ASCII lower-casing, as Fetch applies it to header names. *)
Definition to_lower (c : ascii) : ascii :=
  if is_upper c then chr (code c + 32) else c.

Definition lowercase (s : string) : string := str (map to_lower (chars s)).

(** *** Base64: [btoa] and [atob] *)

Definition alphabet : string :=
  "ABCDEFGHIJKLMNOPQRSTUVWXYZabcdefghijklmnopqrstuvwxyz0123456789+/".

Definition sextet_char (n : Z) : ascii :=
  match String.get (Z.to_nat n) alphabet with
  | Some c => c
  | None => "="%char
  end.

Fixpoint base64_encode (l : list Z) : list ascii :=
  match l with
  | [] => []
  | [a] =>
      [sextet_char (Z.shiftr a 2);
       sextet_char (Z.shiftl (Z.land a 3) 4);
       "="%char; "="%char]
  | [a; b] =>
      [sextet_char (Z.shiftr a 2);
       sextet_char (Z.lor (Z.shiftl (Z.land a 3) 4) (Z.shiftr b 4));
       sextet_char (Z.shiftl (Z.land b 15) 2);
       "="%char]
  | a :: b :: c :: rest =>
      sextet_char (Z.shiftr a 2)
      :: sextet_char (Z.lor (Z.shiftl (Z.land a 3) 4) (Z.shiftr b 4))
      :: sextet_char (Z.lor (Z.shiftl (Z.land b 15) 2) (Z.shiftr c 6))
      :: sextet_char (Z.land c 63)
      :: base64_encode rest
  end.

(** [btoa(s)]: the base64 text of the bytes whose values are the code units
    of [s]. *)
Definition btoa (s : string) : string :=
  str (base64_encode (map code (chars s))).

Definition char_sextet (c : ascii) : option Z :=
  if is_upper c then Some (code c - 65)
  else if is_lower c then Some (code c - 71)
  else if is_digit c then Some (code c + 4)
  else if (code c =? 43) then Some 62
  else if (code c =? 47) then Some 63
  else None.

Definition is_ascii_whitespace (c : ascii) : bool :=
  (code c =? 9) || (code c =? 10) || (code c =? 12) || (code c =? 13)
  || (code c =? 32).

(** Removes one or two trailing [=] from text whose length is a multiple of
    four. *)
Definition strip_padding (l : list ascii) : list ascii :=
  if (Z.of_nat (length l) mod 4 =? 0) then
    match rev l with
    | "="%char :: "="%char :: r => rev r
    | "="%char :: r => rev r
    | _ => l
    end
  else l.

Fixpoint sextets (l : list ascii) : option (list Z) :=
  match l with
  | [] => Some []
  | c :: r =>
      match char_sextet c, sextets r with
      | Some n, Some ns => Some (n :: ns)
      | _, _ => None
      end
  end.

Fixpoint base64_decode (l : list Z) : option (list Z) :=
  match l with
  | [] => Some []
  | [_] => None
  | [a; b] => Some [Z.lor (Z.shiftl a 2) (Z.shiftr b 4)]
  | [a; b; c] =>
      Some [Z.lor (Z.shiftl a 2) (Z.shiftr b 4);
            Z.lor (Z.shiftl (Z.land b 15) 4) (Z.shiftr c 2)]
  | a :: b :: c :: d :: rest =>
      match base64_decode rest with
      | Some bs =>
          Some (Z.lor (Z.shiftl a 2) (Z.shiftr b 4)
                :: Z.lor (Z.shiftl (Z.land b 15) 4) (Z.shiftr c 2)
                :: Z.lor (Z.shiftl (Z.land c 3) 6) d
                :: bs)
      | None => None
      end
  end.

(** [atob(s)]: the forgiving base64 decoding; the result is a string whose
    code units are the decoded bytes. *)
Definition atob (s : string) : exn + string :=
  let l := strip_padding (List.filter (fun c => negb (is_ascii_whitespace c)) (chars s)) in
  match sextets l with
  | Some ns =>
      match base64_decode ns with
      | Some bs => inr (str (map chr bs))
      | None => inl (InvalidCharacterError "Failed to decode base64")
      end
  | None => inl (InvalidCharacterError "Failed to decode base64")
  end.

(** *** Numbers

    A number is NaN, an infinity, or a finite decimal value kept exactly: an
    integer [Int z], or [Dec m k] for [m / 10^k] with [m] not a multiple of
    ten.  JavaScript rounds a finite value to the nearest binary64 and has a
    negative zero; both coincide with this model on the integers of absolute
    value at most 2^53 (a negative zero is [Int 0]), and on them [==],
    ToBoolean and ToString are as defined here. *)
Inductive number : Type :=
| NaN
| Infinity (negative : bool)
| Int (z : Z)
| Dec (m : Z) (k : positive).

(** [m * 10^e] in normal form. *)
Fixpoint shift_right (fuel : nat) (m : Z) (k : positive) : number :=
  match fuel with
  | O => Dec m k
  | S fuel' =>
      if (m mod 10 =? 0) then
        match k with
        | xH => Int (m / 10)
        | _ => shift_right fuel' (m / 10) (Pos.pred k)
        end
      else Dec m k
  end.

Definition decimal (m e : Z) : number :=
  match e with
  | Z.neg k => if (m =? 0) then Int 0 else shift_right (Pos.to_nat k) m k
  | _ => Int (m * 10 ^ e)
  end.

(** ToBoolean on a number: [0] and [NaN] are falsy. *)
Definition truthy_number (n : number) : bool :=
  match n with
  | NaN => false
  | Int z => negb (z =? 0)
  | _ => true
  end.

Definition digit_value (c : ascii) : Z :=
  if is_digit c then code c - 48
  else if is_upper c then code c - 55
  else code c - 87.

Definition is_radix_digit (radix : Z) (c : ascii) : bool :=
  (is_digit c || in_range 65 70 c || in_range 97 102 c)
  && (digit_value c <? radix).

Definition digits_value (radix : Z) (l : list ascii) : Z :=
  fold_left (fun acc c => acc * radix + digit_value c) l 0.

(** The longest prefix of decimal digits, and what follows it. *)
Fixpoint span_digits (l : list ascii) : list ascii * list ascii :=
  match l with
  | c :: r =>
      if is_digit c then let (d, t) := span_digits r in (c :: d, t)
      else ([], l)
  | [] => ([], [])
  end.

(** StrWhiteSpaceChar among the code units below 256. *)
Definition is_str_whitespace (c : ascii) : bool :=
  in_range 9 13 c || (code c =? 32) || (code c =? 160).

Fixpoint trim_start (l : list ascii) : list ascii :=
  match l with
  | c :: r => if is_str_whitespace c then trim_start r else l
  | [] => []
  end.

Definition trim (l : list ascii) : list ascii :=
  rev (trim_start (rev (trim_start l))).

(** An optional sign: [(negative, rest)]. *)
Definition split_sign (l : list ascii) : bool * list ascii :=
  match l with
  | "+"%char :: r => (false, r)
  | "-"%char :: r => (true, r)
  | _ => (false, l)
  end.

(** ExponentPart, when the text ends with one: its value. *)
Definition exponent_part (l : list ascii) : option Z :=
  match l with
  | [] => Some 0
  | c :: r =>
      if (code c =? 101) || (code c =? 69) then
        let (neg, r') := split_sign r in
        match span_digits r' with
        | ((_ :: _) as d, []) =>
            Some (if neg then - digits_value 10 d else digits_value 10 d)
        | _ => None
        end
      else None
  end.

(** StrUnsignedDecimalLiteral other than [Infinity]. *)
Definition unsigned_decimal (l : list ascii) : option number :=
  let (ip, r1) := span_digits l in
  let '(dot, fp, r2) :=
    match r1 with
    | "."%char :: r => let (f, t) := span_digits r in (true, f, t)
    | _ => (false, [], r1)
    end in
  match ip, fp with
  | [], [] => None
  | _, _ =>
      match exponent_part r2 with
      | Some e =>
          Some (decimal (digits_value 10 (ip ++ fp)) (e - Z.of_nat (length fp)))
      | None => None
      end
  end.

Definition negate (n : number) : number :=
  match n with
  | NaN => NaN
  | Infinity b => Infinity (negb b)
  | Int z => Int (- z)
  | Dec m k => Dec (- m) k
  end.

Definition radix_literal (radix : Z) (l : list ascii) : number :=
  match l with
  | [] => NaN
  | _ => if forallb (is_radix_digit radix) l then Int (digits_value radix l) else NaN
  end.

(** StringToNumber. *)
Definition StringToNumber (s : string) : number :=
  match trim (chars s) with
  | [] => Int 0
  | "0"%char :: "x"%char :: r | "0"%char :: "X"%char :: r => radix_literal 16 r
  | "0"%char :: "o"%char :: r | "0"%char :: "O"%char :: r => radix_literal 8 r
  | "0"%char :: "b"%char :: r | "0"%char :: "B"%char :: r => radix_literal 2 r
  | l =>
      let (neg, r) := split_sign l in
      let n :=
        if String.eqb (str r) "Infinity" then Infinity false
        else match unsigned_decimal r with
             | Some n => n
             | None => NaN
             end in
      if neg then negate n else n
  end.


(** ToNumber on a string or null: [+null] is [0]. *)
Definition ToNumber (o : option string) : number :=
  match o with
  | Some s => StringToNumber s
  | None => Int 0
  end.

Definition digit_char (d : Z) : ascii := chr (48 + d).

(** The decimal digits of a non-negative integer, most significant first. *)
Fixpoint digits_of (fuel : nat) (n : Z) (acc : list ascii) : list ascii :=
  match fuel with
  | O => acc
  | S fuel' =>
      let acc' := digit_char (n mod 10) :: acc in
      if (n <? 10) then acc' else digits_of fuel' (n / 10) acc'
  end.

Definition nat_digits (n : Z) : list ascii :=
  digits_of (S (Z.to_nat (Z.log2 n))) n [].

Fixpoint strip_zeros (l : list ascii) : list ascii :=
  match l with
  | "0"%char :: r => strip_zeros r
  | _ => l
  end.

(** Number::toString for a positive value with significant digits [s] (no
    trailing zero) and decimal point after the [n]-th digit. *)
Definition format_digits (s : list ascii) (n : Z) : list ascii :=
  let k := Z.of_nat (length s) in
  if (k <=? n) && (n <=? 21) then
    s ++ repeat "0"%char (Z.to_nat (n - k))
  else if (0 <? n) && (n <=? 21) then
    firstn (Z.to_nat n) s ++ "."%char :: skipn (Z.to_nat n) s
  else if (-6 <? n) && (n <=? 0) then
    "0"%char :: "."%char :: repeat "0"%char (Z.to_nat (- n)) ++ s
  else
    let e := (if (n - 1 <? 0) then "-"%char else "+"%char)
             :: nat_digits (Z.abs (n - 1)) in
    match s with
    | [d] => d :: "e"%char :: e
    | d :: r => d :: "."%char :: r ++ "e"%char :: e
    | [] => []
    end.

(** Number::toString (radix 10), that is [String(n)] and [concat "" n]. *)
Definition number_to_string (n : number) : string :=
  match n with
  | NaN => "NaN"
  | Infinity false => "Infinity"
  | Infinity true => "-Infinity"
  | Int 0 => "0"
  | Int z =>
      let d := nat_digits (Z.abs z) in
      let s := rev (strip_zeros (rev d)) in
      str ((if (z <? 0) then ["-"%char] else [])
           ++ format_digits s (Z.of_nat (length d)))
  | Dec m k =>
      let d := nat_digits (Z.abs m) in
      str ((if (m <? 0) then ["-"%char] else [])
           ++ format_digits d (Z.of_nat (length d) - Z.pos k))
  end.

(** *** encodeURI *)

(** The characters [encodeURI] leaves alone: letters, digits, the URI marks
    and the reserved characters, and [#]. *)
Definition uri_unescaped (c : ascii) : bool :=
  is_upper c || is_lower c || is_digit c
  || existsb (Ascii.eqb c) (chars "-_.!~*'();/?:@&=+$,#").

Definition hex_char (n : Z) : ascii :=
  if (n <? 10) then chr (48 + n) else chr (55 + n).

Definition percent (b : Z) : list ascii :=
  ["%"%char; hex_char (Z.shiftr b 4); hex_char (Z.land b 15)].

(** The UTF-8 octets of a code unit below 256. *)
Definition utf8_octets (c : Z) : list Z :=
  if (c <? 128) then [c]
  else [Z.lor 192 (Z.shiftr c 6); Z.lor 128 (Z.land c 63)].

Definition encodeURI (s : string) : string :=
  str (flat_map
         (fun c => if uri_unescaped c then [c]
                   else flat_map percent (utf8_octets (code c)))
         (chars s)).

(** *** Typed arrays *)

Definition bytes_of_binary_string (s : string) : list byte :=
  map byte_of_ascii (chars s).

Definition binary_string_of_bytes (l : list byte) : string :=
  str (map ascii_of_byte l).

End Js.

(** ** Inverses and bit fields, for the proofs about the primitives *)

Module Sextets.

Definition byte_values : list Z := map Z.of_nat (seq 0 256).

(** The four sextets of three bytes [a], [b], [c], as [base64_encode] cuts
    them. *)
Definition s1 (a : Z) : Z := Z.shiftr a 2.
Definition s2 (a b : Z) : Z := Z.lor (Z.shiftl (Z.land a 3) 4) (Z.shiftr b 4).
Definition s3 (b c : Z) : Z := Z.lor (Z.shiftl (Z.land b 15) 2) (Z.shiftr c 6).
Definition s4 (c : Z) : Z := Z.land c 63.

Definition is_sextet (n : Z) : bool := (0 <=? n) && (n <? 64).

End Sextets.

Module Unescape.
Import Js.





End Unescape.


(** ** Fetch *)

(** A [Headers] object: the header list of a response, in order. *)
Definition Headers : Type := list (string * string).

(** [Headers.get]: names match without regard to ASCII case; the values of
    a repeated header are joined with a comma and a space; [None] is
    [null]. *)
Definition get (h : Headers) (name : string) : option string :=
  match List.filter (fun nv => String.eqb (Js.lowercase (fst nv)) (Js.lowercase name)) h with
  | [] => None
  | nv :: rest => Some (fold_left (fun acc x => acc +:+ ", " +:+ snd x) rest (snd nv))
  end.

(** The content of a file, in memory ([FileData]): an [ArrayBuffer], a
    [Uint8Array] or a string. *)
Inductive FileData : Type :=
| ArrayBuffer (bytes : list byte)
| Uint8Array (bytes : list byte)
| Text (s : string).

(** [FileEncoding]. *)
Inductive FileEncoding : Type := arraybuffer | dataurl | utf8.

(** The options of a request.  [init_headers] is the [headers] record
    ([None]: the property is not set); [body] is [None] for [null] and for
    a property that is not set. *)
Record RequestInit : Type := {
  method : string;
  init_headers : option (gmap string string);
  body : option FileData;
}.

Record Response : Type := {
  status : Z;
  statusText : string;
  redirected : bool;
  headers : Headers;
  arrayBuffer : list byte;
}.

(** ** Side effects and failure *)

(** The effects of the client: a call of [fetch], of [location.reload()],
    of [flushCachesAndUnregisterServiceWorker()] (from [sw_util.ts], opaque
    here) and of [alert]. *)
Inductive event : Type :=
| Fetch (url : string) (options : RequestInit)
| Reload
| FlushCaches
| Alert (message : string).

(** A computation: the effects performed, in order, and the outcome. *)
Definition M (A : Type) : Type := list event * (Js.exn + A).

Definition ret {A} (a : A) : M A := ([], inr a).

Definition throw {A} (e : Js.exn) : M A := ([], inl e).

Definition emit (ev : event) : M unit := ([ev], inr tt).

Definition bind {A B} (m : M A) (k : A -> M B) : M B :=
  match m with
  | (t, inr a) => let (t', r) := k a in (t ++ t', r)
  | (t, inl e) => (t, inl e)
  end.

(** Lifts a pure step that may throw. *)
Definition lift {A} (r : Js.exn + A) : M A := ([], r).

Notation "'let*' x := m 'in' k" := (bind m (fun x => k))
  (at level 10, x name, m at level 100, k at level 200).
Notation "m ;; k" := (bind m (fun _ => k))
  (at level 100, k at level 200, right associativity).

Definition trace {A} (m : M A) : list event := fst m.

Definition outcome {A} (m : M A) : Js.exn + A := snd m.

(** The requests a computation sent. *)
Definition requests (t : list event) : list (string * RequestInit) :=
  flat_map (fun ev => match ev with Fetch u o => [(u, o)] | _ => [] end) t.

(** How many times a computation restarted the client. *)
Definition reloads (t : list event) : nat :=
  length (List.filter (fun ev => match ev with Reload => true | _ => false end) t).

(** ** The helpers of [plugos/asset_bundle/base64.ts] *)

Module Base64.

(** Modelled from the spec: [base64DecodeDataUrl] is imported from
    [plugos/asset_bundle/base64.ts], whose source is not part of the files at
    hand.  A data URL is "a self-describing string encoding a MIME type plus
    base64 payload in one value", as in [data:image/png;base64,AAAA]; decoding
    it gives the raw bytes of the payload, the text after the first comma.
    Text without a comma, or with a payload that is not base64, makes
    decoding throw. *)
Fixpoint payload (l : list ascii) : option (list ascii) :=
  match l with
  | [] => None
  | ","%char :: r => Some r
  | _ :: r => payload r
  end.

Definition base64DecodeDataUrl (dataUrl : string) : Js.exn + list byte :=
  match payload (Js.chars dataUrl) with
  | Some p =>
      match Js.atob (Js.str p) with
      | inr s => inr (Js.bytes_of_binary_string s)
      | inl e => inl e
      end
  | None => inl (Js.TypeError "not a data URL")
  end.

(** Modelled from the spec: [base64EncodedDataUrl], from the same file,
    wraps raw bytes "as a self-describing data URL" of the given MIME
    type. *)
Definition base64EncodedDataUrl (mimeType : string) (buffer : list byte) : string :=
  "data:" +:+ mimeType +:+ ";base64," +:+ Js.btoa (Js.binary_string_of_bytes buffer).

End Base64.

(** ** [FileMeta] *)

(** [contentType] is [None] when the header is missing ([null] behind the
    non-null assertion); [perm] is whatever text the header has. *)
Record FileMeta : Type := {
  name : string;
  size : Js.number;
  contentType : option string;
  lastModified : Js.number;
  perm : string;
}.

(** ** The class *)

Record HttpSpacePrimitives : Type := {
  url : string;
  expectedSpacePath : option string;
  user : option string;
  password : option string;
}.

(** The five operations of the interface, with their arguments. *)
Inductive operation : Type :=
| ListFiles
| ReadFile (name : string) (encoding : FileEncoding)
| WriteFile (name : string) (encoding : FileEncoding) (data : FileData)
    (selfUpdate : option bool) (lastModified : option Js.number)
| DeleteFile (name : string)
| GetFileMeta (name : string).

(** A computation run for its effects and its failure only. *)
Definition discard {A} (m : M A) : M unit :=
  (trace m, match outcome m with
            | inl e => inl e
            | inr _ => inr tt
            end).

(** The environment the client runs in: the globals of the host and the
    imported helpers. *)
Record Env : Type := {
  (** whether the global [location] exists (it does in a browser) *)
  location_defined : bool;
  (** the network: what [fetch] resolves to, or the error it rejects with *)
  fetch : string -> RequestInit -> Js.exn + Response;
  (** [mime.getType], [null] for an unknown extension *)
  mime_getType : string -> option string;
  (** [base64DecodeDataUrl] and [base64EncodedDataUrl], imported from
      [plugos/asset_bundle/base64.ts] *)
  base64DecodeDataUrl : string -> Js.exn + list byte;
  base64EncodedDataUrl : string -> list byte -> string;
  (** [Response.text()]: the body decoded as UTF-8 *)
  text : list byte -> string;
  (** [Response.json()]: the body parsed as JSON, here as a file list *)
  json : list byte -> Js.exn + list FileMeta;
}.

(** ** Scenarios

    Concrete environments, used to run the methods. *)

Module Scenario.

Definition space : HttpSpacePrimitives :=
  {| url := "http://host/fs"; expectedSpacePath := Some "/space";
     user := None; password := None |}.

Definition space_with_login : HttpSpacePrimitives :=
  {| url := "http://host/fs"; expectedSpacePath := None;
     user := Some "user"; password := Some "pw" |}.

(** A server that answers every request with [res]. *)
Definition answering (res : Response) : string -> RequestInit -> Js.exn + Response :=
  fun _ _ => inr res.

Definition respond (status : Z) (statusText : string) (redirected : bool)
    (headers : Headers) : Response :=
  {| status := status; statusText := statusText; redirected := redirected;
     headers := headers; arrayBuffer := [] |}.

(** Responses: a plain success with and without metadata headers, the
    list of another space, a refusal, and responses reached through a
    redirection. *)
Definition bare : Response := respond 200 "OK" false [].

Definition with_meta : Response :=
  respond 200 "OK" false
    [("Content-Type", "text/markdown"); ("X-Content-Length", "5");
     ("X-Last-Modified", "1700000000000"); ("X-Permission", "admin")]%string.

Definition other_space : Response :=
  respond 200 "OK" false [("X-Space-Path", "/other")]%string.

Definition denied : Response := respond 401 "Unauthorized" false [].

Definition missing : Response := respond 404 "Not Found" false [].

Definition gone : Response := respond 410 "Gone" false [].

Definition redirected_missing : Response := respond 404 "Not Found" true [].

Definition redirected_ok : Response := respond 200 "OK" true [].

Definition server_error : Response :=
  respond 500 "Internal Server Error" false [("X-Content-Length", "0007")]%string.

(** A network that is down. *)
Definition unreachable : string -> RequestInit -> Js.exn + Response :=
  fun _ _ => inl (Js.TypeError "Failed to fetch").

Definition no_mime : string -> option string := fun _ => None.

Definition latin1 : list byte -> string := Js.binary_string_of_bytes.

Definition a_file : FileMeta :=
  {| name := "index.md"; size := Js.Int 5; contentType := Some "text/markdown";
     lastModified := Js.Int 1700000000000; perm := "rw" |}.

(** A JSON parser that finds the one-file list in every body. *)
Definition one_file : list byte -> Js.exn + list FileMeta :=
  fun _ => inr [a_file].

(** A host with or without [location], talking to [server]; the helpers of
    [base64.ts] are the modelled ones. *)
Definition host (location : bool)
    (server : string -> RequestInit -> Js.exn + Response) : Env :=
  {| location_defined := location;
     fetch := server;
     mime_getType := no_mime;
     base64DecodeDataUrl := Base64.base64DecodeDataUrl;
     base64EncodedDataUrl := Base64.base64EncodedDataUrl;
     text := latin1;
     json := one_file |}.

Definition browser := host true.

Definition headless := host false.

End Scenario.

Section Methods.

Variable env : Env.

Variable this : HttpSpacePrimitives.

(** [location.reload()], where [location] may not exist. *)
Definition location_reload : M unit :=
  if location_defined env then emit Reload
  else throw (Js.ReferenceError "location is not defined").

(** The first statement of [authenticatedFetch]: the options as they are
    once the cookie is set. *)
Definition with_auth_cookie (options : RequestInit) : RequestInit :=
  match user this, password this with
  | Some u, Some p =>
      if Js.truthy_string u && Js.truthy_string p then
        let h := match init_headers options with
                 | Some h => h
                 | None => ∅
                 end in
        {| method := method options;
           init_headers :=
             Some (<["cookie" := "auth=" +:+ Js.btoa (u +:+ ":" +:+ p)]> h);
           body := body options |}
      else options
  | _, _ => options
  end.

Definition authenticatedFetch (url : string) (options : RequestInit) : M Response :=
  let options := with_auth_cookie options in
  let* result := (emit (Fetch url options);; lift (fetch env url options)) in
  if (status result =? 401) || redirected result then
    (if location_defined env then emit Reload else ret tt);;
    throw (Js.Error "Unauthorized")
  else ret result.

Definition fetchFileList : M (list FileMeta) :=
  let* req := authenticatedFetch (url this)
                {| method := "GET"; init_headers := None; body := None |} in
  (if Js.truthy (expectedSpacePath this)
      && negb (bool_decide (get (headers req) "X-Space-Path" = expectedSpacePath this))
   then
     emit FlushCaches;;
     emit (Alert "Space folder path different on server, reloading the page");;
     location_reload
   else ret tt);;
  lift (json env (arrayBuffer req)).

Definition responseToMeta (name : string) (res : Response) : FileMeta :=
  {| name := name;
     size := Js.ToNumber (get (headers res) "X-Content-Length");
     contentType := get (headers res) "Content-type";
     lastModified :=
       Js.StringToNumber (Js.or_else (get (headers res) "X-Last-Modified") "0");
     perm := Js.or_else (get (headers res) "X-Permission") "rw" |}.

Definition file_url (name : string) : string :=
  url this +:+ "/" +:+ Js.encodeURI name.

Definition readFile (name : string) (encoding : FileEncoding)
  : M (FileData * FileMeta) :=
  let* res := authenticatedFetch (file_url name)
                {| method := "GET"; init_headers := None; body := None |} in
  if (status res =? 404) then throw (Js.Error "Page not found")
  else
    let data :=
      match encoding with
      | arraybuffer => ArrayBuffer (arrayBuffer res)
      | dataurl =>
          Text (base64EncodedDataUrl env
                  (Js.or_else (mime_getType env name) "application/octet-stream")
                  (arrayBuffer res))
      | utf8 => Text (text env (arrayBuffer res))
      end in
    ret (data, responseToMeta name res).

(** The [switch] of [writeFile]: the values of [body] and [data] after it.
    The [dataurl] case assigns the decoded bytes to [data]. *)
Definition write_switch (encoding : FileEncoding) (data : FileData)
  : M (option FileData * FileData) :=
  match encoding with
  | arraybuffer =>
      ret (Some (match data with
                 | ArrayBuffer b => Uint8Array b
                 | _ => data
                 end), data)
  | utf8 => ret (Some data, data)
  | dataurl =>
      let* bytes := lift (match data with
                          | Text s => base64DecodeDataUrl env s
                          | _ => inl (Js.TypeError "not a string")
                          end) in
      ret (None, Uint8Array bytes)
  end.

Definition writeFile (name : string) (encoding : FileEncoding) (data : FileData)
    (_selfUpdate : option bool) (lastModified : option Js.number) : M FileMeta :=
  let* bd := write_switch encoding data in
  let body := fst bd in
  let headers : gmap string string :=
    {["Content-Type" := "application/octet-stream"]} in
  let headers :=
    match lastModified with
    | Some t =>
        if Js.truthy_number t
        then <["X-Last-Modified" := "" +:+ Js.number_to_string t]> headers
        else headers
    | None => headers
    end in
  let* res := authenticatedFetch (file_url name)
                {| method := "PUT"; init_headers := Some headers; body := body |} in
  let newMeta := responseToMeta name res in
  ret newMeta.

Definition deleteFile (name : string) : M unit :=
  let* req := authenticatedFetch (file_url name)
                {| method := "DELETE"; init_headers := None; body := None |} in
  if negb (status req =? 200) then
    throw (Js.Error ("Failed to delete file: " +:+ statusText req))
  else ret tt.

Definition getFileMeta (name : string) : M FileMeta :=
  let* res := authenticatedFetch (file_url name)
                {| method := "OPTIONS"; init_headers := None; body := None |} in
  if (status res =? 404) then throw (Js.Error "File not found")
  else ret (responseToMeta name res).

(** Plugs are not supported. *)
Definition proxySyscall : M unit := throw (Js.Error "Not supported").

Definition invokeFunction : M unit := throw (Js.Error "Not supported").

(** The header of a write that says when the file was modified. *)
Definition last_modified_header (lm : option Js.number) : option string :=
  match lm with
  | Some t => if Js.truthy_number t then Some (Js.number_to_string t) else None
  | None => None
  end.

(** Calls the method of an operation. *)
Definition perform (op : operation) : M unit :=
  match op with
  | ListFiles => discard fetchFileList
  | ReadFile n encoding => discard (readFile n encoding)
  | WriteFile n encoding data su lm => discard (writeFile n encoding data su lm)
  | DeleteFile n => deleteFile n
  | GetFileMeta n => discard (getFileMeta n)
  end.


Definition target (op : operation) : string :=
  match op with
  | ListFiles => url this
  | ReadFile n _ | WriteFile n _ _ _ _ | DeleteFile n | GetFileMeta n => file_url n
  end.


(** The effects that only a space mismatch has. *)
Definition is_mismatch_effect (ev : event) : bool :=
  match ev with
  | FlushCaches | Alert _ => true
  | _ => false
  end.

(** ** Properties *)

(** *** The transport *)

(** [authenticatedFetch] sends one request, the caller's options with the
    cookie set, and fails on 401 and on a redirected response. *)
Lemma authenticatedFetch_eq (u : string) (options : RequestInit) :
  authenticatedFetch u options =
  let o := with_auth_cookie options in
  match fetch env u o with
  | inl e => ([Fetch u o], inl e)
  | inr res =>
      if (status res =? 401) || redirected res
      then (Fetch u o :: (if location_defined env then [Reload] else []),
            inl (Js.Error "Unauthorized"))
      else ([Fetch u o], inr res)
  end.
Proof.
  unfold authenticatedFetch, bind, emit, lift, throw, ret; simpl.
  destruct (fetch env u (with_auth_cookie options)) as [e | res]; simpl; [reflexivity |].
  destruct ((status res =? 401) || redirected res); [| reflexivity].
  destruct (location_defined env); reflexivity.
Qed.

(** A response passes the transport when it is neither a 401 nor
    redirected. *)
Lemma authenticatedFetch_pass (u : string) (options : RequestInit) (res : Response) :
  fetch env u (with_auth_cookie options) = inr res ->
  status res <> 401 -> redirected res = false ->
  authenticatedFetch u options = ([Fetch u (with_auth_cookie options)], inr res).
Proof.
  intros Hf Hs Hr. rewrite authenticatedFetch_eq; simpl. rewrite Hf, Hr.
  apply Z.eqb_neq in Hs. rewrite Hs. reflexivity.
Qed.

Lemma authenticatedFetch_unauthorized (u : string) (options : RequestInit) (res : Response) :
  fetch env u (with_auth_cookie options) = inr res ->
  status res = 401 \/ redirected res = true ->
  authenticatedFetch u options =
  (Fetch u (with_auth_cookie options) :: (if location_defined env then [Reload] else []),
   inl (Js.Error "Unauthorized")).
Proof.
  intros Hf H. rewrite authenticatedFetch_eq; simpl. rewrite Hf.
  replace ((status res =? 401) || redirected res) with true; [reflexivity |].
  symmetry. apply orb_true_iff. destruct H as [H | H]; [left | right; exact H].
  apply Z.eqb_eq. exact H.
Qed.

Lemma with_auth_cookie_method (options : RequestInit) :
  method (with_auth_cookie options) = method options.
Proof.
  unfold with_auth_cookie. destruct (user this), (password this); try reflexivity.
  destruct (_ && _); reflexivity.
Qed.

Lemma with_auth_cookie_body (options : RequestInit) :
  body (with_auth_cookie options) = body options.
Proof.
  unfold with_auth_cookie. destruct (user this), (password this); try reflexivity.
  destruct (_ && _); reflexivity.
Qed.

(** Whatever the credentials, the cookie leaves the other headers of a
    request that has a header record as they are. *)
Lemma with_auth_cookie_other (options : RequestInit) (h : gmap string string) (k : string) :
  init_headers options = Some h -> k <> "cookie"%string ->
  exists h', init_headers (with_auth_cookie options) = Some h' /\ h' !! k = h !! k.
Proof.
  intros Hh Hk. unfold with_auth_cookie.
  destruct (user this), (password this); try (exists h; split; [exact Hh | reflexivity]).
  destruct (_ && _); [| exists h; split; [exact Hh | reflexivity]].
  simpl. rewrite Hh. eexists; split; [reflexivity |].
  apply lookup_insert_ne. congruence.
Qed.

Lemma truthy_string_true (s : string) : s <> ""%string -> Js.truthy_string s = true.
Proof. destruct s; [congruence | reflexivity]. Qed.

(** *** The metadata projection *)

(** C4: [responseToMeta] is a function of the name and the response, defined
    on every response; a missing [X-Content-Length] gives size 0, a missing
    [X-Last-Modified] gives time 0, a missing [X-Permission] gives ["rw"]. *)
Theorem responseToMeta_defaults (n : string) (res : Response) :
  (exists m : FileMeta, responseToMeta n res = m)
  /\ (get (headers res) "X-Content-Length" = None ->
      size (responseToMeta n res) = Js.Int 0)
  /\ (get (headers res) "X-Last-Modified" = None ->
      lastModified (responseToMeta n res) = Js.Int 0)
  /\ (get (headers res) "X-Permission" = None ->
      perm (responseToMeta n res) = "rw"%string).
Proof.
  split; [eexists; reflexivity |].
  unfold responseToMeta; simpl.
  repeat split; intros H; rewrite H; reflexivity.
Qed.

(** C10: a present, non-empty [X-Permission] header is the [perm] of the
    projection, whatever its text; a missing or an empty one gives ["rw"]. *)
Theorem responseToMeta_perm_verbatim (n : string) (res : Response) :
  (forall v : string,
      get (headers res) "X-Permission" = Some v -> v <> ""%string ->
      perm (responseToMeta n res) = v)
  /\ (get (headers res) "X-Permission" = None
      \/ get (headers res) "X-Permission" = Some ""%string ->
      perm (responseToMeta n res) = "rw"%string).
Proof.
  unfold responseToMeta; simpl. split.
  - intros v Hv Hne. rewrite Hv. simpl. rewrite (truthy_string_true _ Hne). reflexivity.
  - intros [H | H]; rewrite H; reflexivity.
Qed.

Lemma responseToMeta_name (n : string) (res : Response) :
  name (responseToMeta n res) = n.
Proof. reflexivity. Qed.

(** *** The file operations *)

(** The outcome of a computation that goes on after [authenticatedFetch]:
    either the transport failed and so does the computation, or the response
    passed and the continuation ran on it. *)
Lemma after_fetch {A} (u : string) (options : RequestInit) (k : Response -> M A)
    (r : A) :
  outcome (bind (authenticatedFetch u options) k) = inr r ->
  exists res : Response,
    fetch env u (with_auth_cookie options) = inr res
    /\ status res <> 401 /\ redirected res = false
    /\ outcome (k res) = inr r.
Proof.
  rewrite authenticatedFetch_eq; simpl.
  destruct (fetch env u (with_auth_cookie options)) as [e | res]; simpl; [discriminate |].
  destruct (status res =? 401) eqn:Hs; simpl; [discriminate |].
  destruct (redirected res) eqn:Hr; simpl; [discriminate |].
  intros H. exists res. apply Z.eqb_neq in Hs. repeat split; try assumption.
  destruct (k res); exact H.
Qed.

(** C9: the metadata a successful read, write or stat returns has the name
    that was passed in. *)
Theorem returned_name_is_argument (n : string) :
  (forall (encoding : FileEncoding) (d : FileData) (m : FileMeta),
      outcome (readFile n encoding) = inr (d, m) -> name m = n)
  /\ (forall (encoding : FileEncoding) (data : FileData) (su : option bool)
             (lm : option Js.number) (m : FileMeta),
      outcome (writeFile n encoding data su lm) = inr m -> name m = n)
  /\ (forall m : FileMeta, outcome (getFileMeta n) = inr m -> name m = n).
Proof.
  repeat split.
  - intros encoding d m H. unfold readFile in H.
    apply after_fetch in H as (res & _ & _ & _ & H).
    destruct (status res =? 404); [discriminate |].
    simpl in H. injection H as _ <-. reflexivity.
  - intros encoding data su lm m H. unfold writeFile in H.
    destruct (write_switch encoding data) as [t [e | bd]] eqn:Hw; [discriminate |].
    unfold bind at 1 in H.
    match type of H with
    | outcome (let (_, _) := ?c in _) = _ => destruct c as [t' r'] eqn:Hc
    end.
    simpl in H. subst r'.
    assert (Ho : outcome (t', inr m : Js.exn + FileMeta) = inr m) by reflexivity.
    rewrite <- Hc in Ho.
    apply after_fetch in Ho as (res & _ & _ & _ & Ho).
    simpl in Ho. injection Ho as <-. reflexivity.
  - intros m H. unfold getFileMeta in H.
    apply after_fetch in H as (res & _ & _ & _ & H).
    destruct (status res =? 404); [discriminate |].
    simpl in H. injection H as <-. reflexivity.
Qed.

(** C6, as amended: when the response to a read has status 404 and was not
    redirected, the read fails with the error "Page not found"; a stat in
    the same situation fails with the error "File not found". *)
Theorem not_found_on_404 (n : string) (res : Response) :
  (forall u o, fetch env u o = inr res) ->
  status res = 404 -> redirected res = false ->
  (forall encoding : FileEncoding,
      outcome (readFile n encoding) = inl (Js.Error "Page not found"))
  /\ outcome (getFileMeta n) = inl (Js.Error "File not found").
Proof.
  intros Hf Hs Hr.
  assert (Hne : status res <> 401) by lia.
  split; [intros encoding; unfold readFile | unfold getFileMeta];
    rewrite (authenticatedFetch_pass _ _ res (Hf _ _) Hne Hr);
    simpl; rewrite Hs; reflexivity.
Qed.

(** C7, as amended: when the response to a delete is neither a 401 nor
    redirected, status 200 makes the delete return, and any other status
    makes it fail with an error whose message ends with the status text of
    the response. *)
Theorem delete_outcome (n : string) (res : Response) :
  (forall u o, fetch env u o = inr res) ->
  status res <> 401 -> redirected res = false ->
  (status res = 200 -> outcome (deleteFile n) = inr tt)
  /\ (status res <> 200 ->
      outcome (deleteFile n)
      = inl (Js.Error ("Failed to delete file: " +:+ statusText res))).
Proof.
  intros Hf Hne Hr. unfold deleteFile.
  rewrite (authenticatedFetch_pass _ _ res (Hf _ _) Hne Hr). simpl.
  split; intros Hs.
  - rewrite Hs. reflexivity.
  - apply Z.eqb_neq in Hs. rewrite Hs. reflexivity.
Qed.

(** [writeFile] prepares its body without any effect. *)
Lemma write_switch_trace (encoding : FileEncoding) (data : FileData) :
  trace (write_switch encoding data) = [].
Proof.
  destruct encoding; try reflexivity. simpl.
  destruct data as [b | b | s]; try reflexivity.
  unfold bind, lift. destruct (base64DecodeDataUrl env s); reflexivity.
Qed.

(** A rejected request: what every operation that reaches the network
    does with a 401 or a redirected response. *)
Lemma rejected_then (A : Type) (u : string) (options : RequestInit)
    (k : Response -> M A) (res : Response) :
  fetch env u (with_auth_cookie options) = inr res ->
  status res = 401 \/ redirected res = true ->
  bind (authenticatedFetch u options) k =
  (Fetch u (with_auth_cookie options) :: (if location_defined env then [Reload] else []),
   inl (Js.Error "Unauthorized")).
Proof.
  intros Hf H. rewrite (authenticatedFetch_unauthorized _ _ res Hf H). reflexivity.
Qed.

Lemma reloads_after_fetch (u : string) (o : RequestInit) :
  reloads (Fetch u o :: (if location_defined env then [Reload] else []))
  = if location_defined env then 1%nat else 0%nat.
Proof. destruct (location_defined env); reflexivity. Qed.

(** C3, as amended: when the server answers a request of any of the five
    operations with a 401 or with a redirected response, the call fails with
    the error "Unauthorized", nothing happens after the request but the
    restart, and the client is restarted once where the global [location]
    exists and not at all where it does not. *)
Theorem unauthorized_restarts (res : Response) (op : operation) :
  (forall u o, fetch env u o = inr res) ->
  status res = 401 \/ redirected res = true ->
  requests (trace (perform op)) <> [] ->
  outcome (perform op) = inl (Js.Error "Unauthorized")
  /\ reloads (trace (perform op)) = (if location_defined env then 1%nat else 0%nat)
  /\ exists u o,
      trace (perform op) = Fetch u o :: (if location_defined env then [Reload] else []).
Proof.
  intros Hf H Hsent.
  assert (Hall : exists u o,
             perform op = (Fetch u o :: (if location_defined env then [Reload] else []),
                           inl (Js.Error "Unauthorized"))).
  { destruct op as [| n e | n e d su lm | n | n]; simpl in *.
    - unfold fetchFileList. rewrite (rejected_then _ _ _ _ res (Hf _ _) H).
      eexists _, _. reflexivity.
    - unfold readFile. rewrite (rejected_then _ _ _ _ res (Hf _ _) H).
      eexists _, _. reflexivity.
    - unfold writeFile in *.
      pose proof (write_switch_trace e d) as Ht.
      destruct (write_switch e d) as [t [ex | bd]]; simpl in Ht; subst t.
      + exfalso. apply Hsent. reflexivity.
      + unfold bind at 1.
        rewrite (rejected_then _ _ _ _ res (Hf _ _) H).
        eexists _, _. reflexivity.
    - unfold deleteFile. rewrite (rejected_then _ _ _ _ res (Hf _ _) H).
      eexists _, _. reflexivity.
    - unfold getFileMeta. rewrite (rejected_then _ _ _ _ res (Hf _ _) H).
      eexists _, _. reflexivity. }
  destruct Hall as (u & o & ->). simpl.
  split; [reflexivity |]. split; [apply reloads_after_fetch |].
  eexists _, _. reflexivity.
Qed.

(** C2, as amended: in a host where [location] exists, when a non-empty
    expected space path is configured and the response to the list request
    (one that passes the transport) has an [X-Space-Path] header that differs
    from it or has none, the client flushes its caches, alerts the user and
    reloads, in this order and before the call returns; the call then
    returns the file list parsed from that response. *)
Theorem space_mismatch_effects (res : Response) (expected : string) :
  location_defined env = true ->
  expectedSpacePath this = Some expected -> expected <> ""%string ->
  fetch env (url this)
    (with_auth_cookie {| method := "GET"; init_headers := None; body := None |})
  = inr res ->
  status res <> 401 -> redirected res = false ->
  get (headers res) "X-Space-Path" <> Some expected ->
  fetchFileList
  = ([Fetch (url this)
        (with_auth_cookie {| method := "GET"; init_headers := None; body := None |});
      FlushCaches;
      Alert "Space folder path different on server, reloading the page";
      Reload],
     json env (arrayBuffer res)).
Proof.
  intros Hloc He Hne Hf Hs Hr Hdiff. unfold fetchFileList.
  rewrite (authenticatedFetch_pass _ _ res Hf Hs Hr).
  rewrite He. simpl. rewrite (truthy_string_true _ Hne).
  rewrite bool_decide_eq_false_2 by exact Hdiff. simpl.
  unfold location_reload, lift. rewrite Hloc. simpl.
  destruct (json env (arrayBuffer res)); reflexivity.
Qed.

(** Without a mismatch the list request has no effect but the request. *)
Lemma space_match_no_effects (res : Response) :
  fetch env (url this)
    (with_auth_cookie {| method := "GET"; init_headers := None; body := None |})
  = inr res ->
  status res <> 401 -> redirected res = false ->
  Js.truthy (expectedSpacePath this) = false
  \/ get (headers res) "X-Space-Path" = expectedSpacePath this ->
  fetchFileList
  = ([Fetch (url this)
        (with_auth_cookie {| method := "GET"; init_headers := None; body := None |})],
     json env (arrayBuffer res)).
Proof.
  intros Hf Hs Hr H. unfold fetchFileList.
  rewrite (authenticatedFetch_pass _ _ res Hf Hs Hr).
  assert (Hc : Js.truthy (expectedSpacePath this)
               && negb (bool_decide (get (headers res) "X-Space-Path"
                                     = expectedSpacePath this)) = false).
  { destruct H as [H | H].
    - rewrite H. reflexivity.
    - rewrite bool_decide_eq_true_2 by exact H. apply andb_false_r. }
  unfold bind at 1. rewrite Hc. unfold lift. simpl.
  destruct (json env (arrayBuffer res)); reflexivity.
Qed.

(** C5, as amended: a write whose body could be prepared sends one [PUT]
    request; its [Content-Type] is [application/octet-stream] whatever the
    encoding and content; it carries [X-Last-Modified], the timestamp as
    text, when the caller gave a timestamp other than 0 and NaN, and no such
    header when the caller gave none, or gave 0 or NaN. *)
Theorem write_request_headers (n : string) (encoding : FileEncoding)
    (data : FileData) (su : option bool) (lm : option Js.number)
    (bd : option FileData * FileData) :
  outcome (write_switch encoding data) = inr bd ->
  exists (o : RequestInit) (h : gmap string string),
    requests (trace (writeFile n encoding data su lm)) = [(file_url n, o)]
    /\ method o = "PUT"%string
    /\ init_headers o = Some h
    /\ h !! "Content-Type" = Some "application/octet-stream"%string
    /\ h !! "X-Last-Modified" = last_modified_header lm.
Proof.
  intros Hw. unfold writeFile.
  pose proof (write_switch_trace encoding data) as Ht.
  destruct (write_switch encoding data) as [t [e | bd']]; simpl in Ht, Hw;
    [discriminate |]. subst t. injection Hw as ->.
  unfold bind at 1.
  set (hs := match lm with
             | Some t => if Js.truthy_number t
                         then <["X-Last-Modified" := "" +:+ Js.number_to_string t]>
                                ({["Content-Type" := "application/octet-stream"]}
                                 : gmap string string)
                         else {["Content-Type" := "application/octet-stream"]}
             | None => {["Content-Type" := "application/octet-stream"]}
             end).
  set (o := {| method := "PUT"; init_headers := Some hs; body := fst bd |}).
  assert (Hct : hs !! "Content-Type" = Some "application/octet-stream"%string).
  { subst hs. destruct lm as [t |]; [destruct (Js.truthy_number t) |];
      reflexivity. }
  assert (Hlm : hs !! "X-Last-Modified" = last_modified_header lm).
  { subst hs. unfold last_modified_header.
    destruct lm as [t |]; [destruct (Js.truthy_number t) |]; reflexivity. }
  destruct (with_auth_cookie_other o hs "Content-Type" eq_refl ltac:(discriminate))
    as (h' & Hh' & Hct').
  destruct (with_auth_cookie_other o hs "X-Last-Modified" eq_refl ltac:(discriminate))
    as (h'' & Hh'' & Hlm').
  rewrite Hh' in Hh''. injection Hh'' as <-.
  exists (with_auth_cookie o), h'.
  split.
  { rewrite authenticatedFetch_eq; simpl.
    destruct (fetch env (file_url n) (with_auth_cookie o)) as [e | res]; [reflexivity |].
    destruct (_ || _); [| reflexivity]. destruct (location_defined env); reflexivity. }
  split; [apply with_auth_cookie_method |].
  split; [exact Hh' |].
  split; congruence.
Qed.

(** Every request a write with the [dataurl] encoding sends has no body:
    the decoded bytes are left in [data]. *)
Lemma writeFile_dataurl_no_body (n : string) (data : FileData)
    (su : option bool) (lm : option Js.number) :
  Forall (fun r => body (snd r) = None)
    (requests (trace (writeFile n dataurl data su lm))).
Proof.
  unfold writeFile.
  pose proof (write_switch_trace dataurl data) as Ht.
  destruct (write_switch dataurl data) as [t [e | bd]] eqn:Hw; simpl in Ht; subst t.
  - constructor.
  - assert (Hb : fst bd = None).
    { simpl in Hw. destruct data as [b | b | s]; try discriminate.
      unfold bind, lift in Hw. destruct (base64DecodeDataUrl env s); [discriminate |].
      simpl in Hw. injection Hw as <-. reflexivity. }
    unfold bind at 1. rewrite authenticatedFetch_eq; simpl.
    match goal with
    | |- context [fetch env ?u ?o] =>
        assert (Hbody : body o = None) by (rewrite with_auth_cookie_body; exact Hb);
        destruct (fetch env u o) as [e | res]
    end.
    + repeat constructor. exact Hbody.
    + destruct (_ || _); [destruct (location_defined env) |];
        repeat constructor; exact Hbody.
Qed.

(** *** One round trip, with the cookie *)

(** The cookie of a client that has a user and a password. *)
Lemma with_auth_cookie_sets (usr pw : string) (options : RequestInit) :
  user this = Some usr -> password this = Some pw ->
  usr <> ""%string -> pw <> ""%string ->
  init_headers (with_auth_cookie options)
  = Some (<["cookie" := "auth=" +:+ Js.btoa (usr +:+ ":" +:+ pw)]>
            (default ∅ (init_headers options))).
Proof.
  intros Hu Hp Hune Hpne. unfold with_auth_cookie.
  rewrite Hu, Hp, (truthy_string_true _ Hune), (truthy_string_true _ Hpne). simpl.
  destruct (init_headers options); reflexivity.
Qed.

Lemma authenticatedFetch_requests (u : string) (options : RequestInit) :
  requests (trace (authenticatedFetch u options)) = [(u, with_auth_cookie options)].
Proof.
  rewrite authenticatedFetch_eq; simpl.
  destruct (fetch env u (with_auth_cookie options)) as [e | res]; [reflexivity |].
  destruct (_ || _); [| reflexivity]. destruct (location_defined env); reflexivity.
Qed.

Lemma bind_pure {A B} (a : A) (k : A -> M B) : bind ([], inr a) k = k a.
Proof. unfold bind. destruct (k a). reflexivity. Qed.

(** A computation that sends nothing once it has its response. *)
Lemma requests_after_fetch {A} (u : string) (options : RequestInit)
    (k : Response -> M A) :
  (forall res, requests (trace (k res)) = []) ->
  requests (trace (bind (authenticatedFetch u options) k))
  = [(u, with_auth_cookie options)].
Proof.
  intros Hk. rewrite authenticatedFetch_eq; simpl.
  destruct (fetch env u (with_auth_cookie options)) as [e | res]; [reflexivity |].
  destruct (_ || _).
  - destruct (location_defined env); reflexivity.
  - simpl. specialize (Hk res). destruct (k res) as [t r]. simpl in *.
    rewrite Hk. reflexivity.
Qed.

(** Every operation is at most one exchange: it sends one request, through
    [authenticatedFetch], or none at all (a write that cannot prepare its
    body). *)
Lemma one_round_trip (op : operation) :
  requests (trace (perform op)) = []
  \/ exists u options, requests (trace (perform op)) = [(u, with_auth_cookie options)].
Proof.
  destruct op as [| n e | n e d su lm | n | n]; simpl.
  - right. eexists _, _. unfold fetchFileList. apply requests_after_fetch.
    intros res. unfold location_reload, lift.
    destruct (_ && _); [destruct (location_defined env) |]; reflexivity.
  - right. eexists _, _. unfold readFile. apply requests_after_fetch.
    intros res. destruct (status res =? 404); reflexivity.
  - unfold writeFile.
    pose proof (write_switch_trace e d) as Ht.
    destruct (write_switch e d) as [t [ex | bd]]; simpl in Ht; subst t.
    + left. reflexivity.
    + right. eexists _, _. rewrite bind_pure.
      apply requests_after_fetch. reflexivity.
  - right. eexists _, _. unfold deleteFile. apply requests_after_fetch.
    intros res. destruct (negb _); reflexivity.
  - right. eexists _, _. unfold getFileMeta. apply requests_after_fetch.
    intros res. destruct (status res =? 404); reflexivity.
Qed.

(** C8: with a user and a password configured, the request that
    [authenticatedFetch] sends carries the cookie [auth=] followed by the
    base64 text of [user:password], in place of any cookie of the caller,
    its other headers, method and body being the caller's, and so does every
    request of the five operations; with a credential missing (or empty) the
    request is the caller's, unchanged. *)
Theorem cookie_on_every_request :
  (forall usr pw : string,
      user this = Some usr -> password this = Some pw ->
      usr <> ""%string -> pw <> ""%string ->
      (forall (u : string) (options : RequestInit),
          exists (o : RequestInit) (h : gmap string string),
            requests (trace (authenticatedFetch u options)) = [(u, o)]
            /\ init_headers o = Some h
            /\ h !! "cookie" = Some ("auth=" +:+ Js.btoa (usr +:+ ":" +:+ pw))
            /\ (forall k : string, k <> "cookie"%string ->
                  h !! k = default ∅ (init_headers options) !! k)
            /\ method o = method options /\ body o = body options)
      /\ (forall op : operation,
             Forall (fun r => exists h : gmap string string,
                         init_headers (snd r) = Some h
                         /\ h !! "cookie"
                            = Some ("auth=" +:+ Js.btoa (usr +:+ ":" +:+ pw)))
               (requests (trace (perform op)))))
  /\ (Js.truthy (user this) && Js.truthy (password this) = false ->
      forall (u : string) (options : RequestInit),
        requests (trace (authenticatedFetch u options)) = [(u, options)]).
Proof.
  split.
  - intros usr pw Hu Hp Hune Hpne. split.
    + intros u options. eexists _, _.
      split; [apply authenticatedFetch_requests |].
      split; [apply (with_auth_cookie_sets usr pw); assumption |].
      split; [apply lookup_insert_eq |].
      split; [| split; [apply with_auth_cookie_method | apply with_auth_cookie_body]].
      intros k Hk. apply lookup_insert_ne. congruence.
    + intros op. destruct (one_round_trip op) as [-> | (u & o & ->)]; constructor.
      * eexists. split; [apply (with_auth_cookie_sets usr pw); assumption |].
        apply lookup_insert_eq.
      * constructor.
  - intros Hfalse u options. rewrite authenticatedFetch_requests.
    unfold with_auth_cookie.
    destruct (user this) as [usr |]; [| reflexivity].
    destruct (password this) as [pw |]; [| reflexivity].
    simpl in Hfalse. rewrite Hfalse. reflexivity.
Qed.

(** *** The operations on the wire *)

(** What a computation that goes on after [authenticatedFetch] is, case by
    case on the exchange. *)
Lemma bind_fetch_cases {A} (u : string) (options : RequestInit) (k : Response -> M A) :
  (exists e, fetch env u (with_auth_cookie options) = inl e
             /\ bind (authenticatedFetch u options) k
                = ([Fetch u (with_auth_cookie options)], inl e))
  \/ (exists res, fetch env u (with_auth_cookie options) = inr res
                  /\ (status res = 401 \/ redirected res = true)
                  /\ bind (authenticatedFetch u options) k
                     = (Fetch u (with_auth_cookie options)
                        :: (if location_defined env then [Reload] else []),
                        inl (Js.Error "Unauthorized")))
  \/ (exists res, fetch env u (with_auth_cookie options) = inr res
                  /\ status res <> 401 /\ redirected res = false
                  /\ bind (authenticatedFetch u options) k
                     = (Fetch u (with_auth_cookie options) :: trace (k res),
                        outcome (k res))).
Proof.
  destruct (fetch env u (with_auth_cookie options)) as [e | res] eqn:Hf.
  - left. exists e. split; [reflexivity |].
    rewrite authenticatedFetch_eq; simpl. rewrite Hf. reflexivity.
  - right. destruct (status res =? 401) eqn:Hs.
    + left. exists res. apply Z.eqb_eq in Hs. split; [reflexivity |].
      split; [left; exact Hs |]. apply (rejected_then _ _ _ _ res Hf). left; exact Hs.
    + destruct (redirected res) eqn:Hr.
      * left. exists res. split; [reflexivity |]. split; [right; exact Hr |].
        apply (rejected_then _ _ _ _ res Hf). right; exact Hr.
      * right. exists res. apply Z.eqb_neq in Hs.
        split; [reflexivity |]. split; [exact Hs |]. split; [exact Hr |].
        rewrite (authenticatedFetch_pass _ _ res Hf Hs Hr).
        unfold bind. destruct (k res); reflexivity.
Qed.

(** The body of a write and the headers it starts from. *)
Lemma writeFile_eq (n : string) (encoding : FileEncoding) (data : FileData)
    (su : option bool) (lm : option Js.number) (bd : option FileData * FileData) :
  write_switch encoding data = ([], inr bd) ->
  exists h : gmap string string,
    h !! "Content-Type" = Some "application/octet-stream"%string
    /\ h !! "X-Last-Modified" = last_modified_header lm
    /\ writeFile n encoding data su lm
       = bind (authenticatedFetch (file_url n)
                 {| method := "PUT"; init_headers := Some h; body := fst bd |})
           (fun res => ret (responseToMeta n res)).
Proof.
  intros Hw. unfold writeFile. rewrite Hw, bind_pure.
  eexists. split; [| split; [| reflexivity]].
  - destruct lm as [t |]; [destruct (Js.truthy_number t) |]; reflexivity.
  - unfold last_modified_header.
    destruct lm as [t |]; [destruct (Js.truthy_number t) |]; reflexivity.
Qed.

Lemma write_switch_cases (encoding : FileEncoding) (data : FileData) :
  (exists e, write_switch encoding data = ([], inl e))
  \/ (exists bd, write_switch encoding data = ([], inr bd)).
Proof.
  pose proof (write_switch_trace encoding data) as Ht.
  destruct (write_switch encoding data) as [t [e | bd]]; simpl in Ht; subst t;
    [left | right]; eexists; reflexivity.
Qed.


(** X2: when the network fails, so that [fetch] rejects with an error, an
    operation that sent its request fails with that same error, and the
    request is its only effect: no restart, no cache flush, no alert. *)
Theorem network_failure_propagates (op : operation) (e : Js.exn) :
  (forall u o, fetch env u o = inl e) ->
  requests (trace (perform op)) <> [] ->
  outcome (perform op) = inl e
  /\ exists o, trace (perform op) = [Fetch (target op) o].
Proof.
  intros Hf Hsent.
  assert (Hb : forall A u o (k : Response -> M A),
             bind (authenticatedFetch u o) k = ([Fetch u (with_auth_cookie o)], inl e)).
  { intros A u o k. rewrite authenticatedFetch_eq; simpl. rewrite Hf. reflexivity. }
  destruct op as [| n enc | n enc d su lm | n | n]; simpl in *.
  - unfold fetchFileList. rewrite Hb. split; [reflexivity | eexists; reflexivity].
  - unfold readFile. rewrite Hb. split; [reflexivity | eexists; reflexivity].
  - destruct (write_switch_cases enc d) as [(ex & Hw) | (bd & Hw)].
    + exfalso. apply Hsent. unfold writeFile. rewrite Hw. reflexivity.
    + destruct (writeFile_eq n enc d su lm bd Hw) as (h & _ & _ & ->).
      rewrite Hb. split; [reflexivity | eexists; reflexivity].
  - unfold deleteFile. rewrite Hb. split; [reflexivity | eexists; reflexivity].
  - unfold getFileMeta. rewrite Hb. split; [reflexivity | eexists; reflexivity].
Qed.

(** X3: a read does not look at the status beyond 401 and 404: a response
    that was not redirected, with any other status (a 500 as well as a 200),
    makes the read return the body in the requested encoding (the bytes;
    the text; a data URL of the MIME type of the name, or of
    [application/octet-stream] when the name has none) with the metadata of
    the headers, the request being its only effect. *)
Theorem readFile_passes_statuses (n : string) (encoding : FileEncoding) (res : Response) :
  fetch env (file_url n)
    (with_auth_cookie {| method := "GET"; init_headers := None; body := None |})
  = inr res ->
  status res <> 401 -> status res <> 404 -> redirected res = false ->
  readFile n encoding
  = ([Fetch (file_url n)
        (with_auth_cookie {| method := "GET"; init_headers := None; body := None |})],
     inr (match encoding with
          | arraybuffer => ArrayBuffer (arrayBuffer res)
          | dataurl =>
              Text (base64EncodedDataUrl env
                      (match mime_getType env n with
                       | Some (String _ _ as t) => t
                       | _ => "application/octet-stream"%string
                       end)
                      (arrayBuffer res))
          | utf8 => Text (text env (arrayBuffer res))
          end,
          {| name := n;
             size := Js.ToNumber (get (headers res) "X-Content-Length");
             contentType := get (headers res) "Content-type";
             lastModified :=
               Js.StringToNumber (Js.or_else (get (headers res) "X-Last-Modified") "0");
             perm := Js.or_else (get (headers res) "X-Permission") "rw" |})).
Proof.
  intros Hf H401 H404 Hr. unfold readFile.
  rewrite (authenticatedFetch_pass _ _ res Hf H401 Hr).
  apply Z.eqb_neq in H404. simpl. rewrite H404. simpl.
  destruct encoding; try reflexivity.
  unfold Js.or_else. destruct (mime_getType env n) as [[| c t] |]; reflexivity.
Qed.

(** X4: a write whose body could be prepared does not look at the status
    beyond 401: any response that was not redirected and is not a 401 (a 404
    or a 500 as well as a 200) makes the write return the metadata of the
    response headers under the written name, the request being its only
    effect. *)
Theorem writeFile_passes_statuses (n : string) (encoding : FileEncoding)
    (data : FileData) (su : option bool) (lm : option Js.number)
    (bd : option FileData * FileData) (res : Response) :
  outcome (write_switch encoding data) = inr bd ->
  (forall u o, fetch env u o = inr res) ->
  status res <> 401 -> redirected res = false ->
  outcome (writeFile n encoding data su lm) = inr (responseToMeta n res)
  /\ exists o, trace (writeFile n encoding data su lm) = [Fetch (file_url n) o].
Proof.
  intros Hw Hf H401 Hr.
  destruct (write_switch_cases encoding data) as [(ex & Hw') | (bd' & Hw')];
    rewrite Hw' in Hw; [discriminate |]. simpl in Hw. injection Hw as ->.
  destruct (writeFile_eq n encoding data su lm bd Hw') as (h & _ & _ & ->).
  rewrite (authenticatedFetch_pass _ _ res (Hf _ _) H401 Hr).
  split; [reflexivity | eexists; reflexivity].
Qed.

(** X5: a read and a stat of the same name return the same metadata when
    the two responses have the same headers. *)
Theorem read_and_stat_agree (n : string) (encoding : FileEncoding)
    (res res' : Response) (d : FileData) (m m' : FileMeta) :
  fetch env (file_url n)
    (with_auth_cookie {| method := "GET"; init_headers := None; body := None |})
  = inr res ->
  fetch env (file_url n)
    (with_auth_cookie {| method := "OPTIONS"; init_headers := None; body := None |})
  = inr res' ->
  headers res = headers res' ->
  outcome (readFile n encoding) = inr (d, m) ->
  outcome (getFileMeta n) = inr m' ->
  m = m'.
Proof.
  intros Hf Hf' Hh Hread Hstat.
  unfold readFile in Hread. apply after_fetch in Hread as (r & Hr & _ & _ & Hread).
  unfold getFileMeta in Hstat. apply after_fetch in Hstat as (r' & Hr' & _ & _ & Hstat).
  rewrite Hf in Hr. injection Hr as <-. rewrite Hf' in Hr'. injection Hr' as <-.
  destruct (status res =? 404); [discriminate |].
  destruct (status res' =? 404); [discriminate |].
  simpl in Hread, Hstat. injection Hread as _ <-. injection Hstat as <-.
  unfold responseToMeta. rewrite Hh. reflexivity.
Qed.

(** X6: a list whose response passes the transport has no effect but its
    request, and returns what the JSON parser makes of the body, when no
    expected space path is configured (or an empty one), and when the
    [X-Space-Path] header is the expected path. *)
Theorem list_without_mismatch (res : Response) :
  fetch env (url this)
    (with_auth_cookie {| method := "GET"; init_headers := None; body := None |})
  = inr res ->
  status res <> 401 -> redirected res = false ->
  expectedSpacePath this = None \/ expectedSpacePath this = Some ""%string
  \/ get (headers res) "X-Space-Path" = expectedSpacePath this ->
  reloads (trace fetchFileList) = 0%nat
  /\ List.filter is_mismatch_effect (trace fetchFileList) = []
  /\ outcome fetchFileList = json env (arrayBuffer res).
Proof.
  intros Hf Hs Hr H.
  rewrite (space_match_no_effects res Hf Hs Hr).
  - repeat split.
  - destruct H as [H | [H | H]]; [left; rewrite H | left; rewrite H | right; exact H];
      reflexivity.
Qed.

(** X7: whatever the server answers, an operation restarts the client at
    most once, and only a list flushes the caches or alerts the user. *)
Theorem restart_at_most_once (op : operation) :
  (reloads (trace (perform op)) <= 1)%nat
  /\ (op <> ListFiles -> List.filter is_mismatch_effect (trace (perform op)) = []).
Proof.
  assert (Hk : forall A u o (k : Response -> M A),
             (forall res, trace (k res) = []) ->
             (reloads (trace (bind (authenticatedFetch u o) k)) <= 1)%nat
             /\ List.filter is_mismatch_effect (trace (bind (authenticatedFetch u o) k))
                = []).
  { intros A u o k Hk.
    destruct (bind_fetch_cases u o k)
      as [(e & _ & ->) | [(res & _ & _ & ->) | (res & _ & _ & _ & ->)]];
      unfold reloads; simpl.
    - split; [lia | reflexivity].
    - destruct (location_defined env); simpl; split; (lia || reflexivity).
    - rewrite Hk. simpl. split; [lia | reflexivity]. }
  destruct op as [| n e | n e d su lm | n | n]; simpl.
  - split; [| congruence]. unfold fetchFileList.
    match goal with
    | |- context [bind (authenticatedFetch ?u ?o) ?k] =>
        destruct (bind_fetch_cases u o k)
          as [(e & _ & ->) | [(res & _ & _ & ->) | (res & _ & _ & _ & ->)]]
    end; unfold reloads; simpl.
    + lia.
    + destruct (location_defined env); simpl; lia.
    + unfold location_reload, lift.
      destruct (_ && _); [destruct (location_defined env) |]; simpl;
        try destruct (json env (arrayBuffer res)); simpl; lia.
  - unfold readFile. split; [| intros _]; apply Hk;
      intros res; destruct (status res =? 404); reflexivity.
  - destruct (write_switch_cases e d) as [(ex & Hw) | (bd & Hw)].
    + unfold writeFile. rewrite Hw. unfold reloads. simpl. split; [lia | reflexivity].
    + destruct (writeFile_eq n e d su lm bd Hw) as (h & _ & _ & ->).
      split; [| intros _]; apply Hk; reflexivity.
  - unfold deleteFile. split; [| intros _]; apply Hk;
      intros res; destruct (negb _); reflexivity.
  - unfold getFileMeta. split; [| intros _]; apply Hk;
      intros res; destruct (status res =? 404); reflexivity.
Qed.

(** X8: a write with the [dataurl] encoding whose data URL the decoder
    rejects fails with the error of the decoder before anything is sent. *)
Theorem malformed_dataurl_not_sent (n s : string) (su : option bool)
    (lm : option Js.number) (e : Js.exn) :
  base64DecodeDataUrl env s = inl e ->
  writeFile n dataurl (Text s) su lm = ([], inl e).
Proof.
  intros Hd. unfold writeFile. simpl. unfold bind at 2, lift. rewrite Hd. reflexivity.
Qed.


End Methods.

(** ** The primitives, on examples *)

Example btoa_user_pw : Js.btoa "user:pw" = "dXNlcjpwdw=="%string.
Proof. reflexivity. Qed.

Example atob_AAAA : Js.atob "AAAA" = inr (Js.str [zero; zero; zero]).
Proof. reflexivity. Qed.

Example atob_btoa_hello : Js.atob (Js.btoa "hello") = inr "hello"%string.
Proof. reflexivity. Qed.

Example atob_rejects : Js.atob "A" = inl (Js.InvalidCharacterError "Failed to decode base64").
Proof. reflexivity. Qed.

Example StringToNumber_examples :
  map Js.StringToNumber ["0"; ""; " 42 "; "-17"; "1.5"; "1e3"; "0x1F"; "12px"; "Infinity"]%string
  = [Js.Int 0; Js.Int 0; Js.Int 42; Js.Int (-17); Js.Dec 15 1; Js.Int 1000; Js.Int 31;
     Js.NaN; Js.Infinity false].
Proof. reflexivity. Qed.

Example number_to_string_examples :
  map Js.number_to_string
    [Js.Int 0; Js.Int 1700000000000; Js.Int (-42); Js.Dec 15 1; Js.Dec 1 7; Js.Int (10 ^ 21)]
  = ["0"; "1700000000000"; "-42"; "1.5"; "1e-7"; "1e+21"]%string.
Proof. vm_compute. reflexivity. Qed.

Example encodeURI_example : Js.encodeURI "img/a b.png?x=1#%" = "img/a%20b.png?x=1#%25"%string.
Proof. reflexivity. Qed.

Example get_ignores_case_and_joins :
  get [("x-permission", "ro"); ("X-Permission", "rw")]%string "X-PERMISSION"
  = Some "ro, rw"%string.
Proof. reflexivity. Qed.

(** ** The operations, in scenarios *)

Import Scenario.

(** C1: on the write of the data URL [data:image/png;base64,AAAA], whose
    payload decodes to three zero bytes, the request that [writeFile] sends
    has no body. *)
Theorem writeFile_dataurl_sends_no_body :
  Base64.base64DecodeDataUrl "data:image/png;base64,AAAA" = inr [x00; x00; x00]
  /\ requests (trace (writeFile (browser (answering bare)) space "img/a.png" dataurl
                        (Text "data:image/png;base64,AAAA") None None))
     = [("http://host/fs/img/a.png"%string,
         {| method := "PUT";
            init_headers := Some {["Content-Type" := "application/octet-stream"]};
            body := None |})].
Proof. split; reflexivity. Qed.

(** The other encodings do send the content. *)
Example writeFile_utf8_sends_text :
  map (fun r => body (snd r))
    (requests (trace (writeFile (browser (answering bare)) space "notes/a.md" utf8
                        (Text "hello") None None)))
  = [Some (Text "hello")].
Proof. reflexivity. Qed.

(** C2 fails as stated: in a browser, the list of a server whose space path
    is not the expected one still reaches the caller, after the reload. *)
Lemma mismatched_list_is_returned :
  expectedSpacePath space = Some "/space"%string
  /\ get (headers other_space) "X-Space-Path" = Some "/other"%string
  /\ fetchFileList (browser (answering other_space)) space
     = ([Fetch "http://host/fs" {| method := "GET"; init_headers := None; body := None |};
         FlushCaches;
         Alert "Space folder path different on server, reloading the page";
         Reload],
        inr [a_file]).
Proof. repeat split. Qed.

(** The amended C2 on the same exchange. *)
Lemma space_mismatch_effects_witness :
  fetchFileList (browser (answering other_space)) space
  = ([Fetch "http://host/fs" {| method := "GET"; init_headers := None; body := None |};
      FlushCaches;
      Alert "Space folder path different on server, reloading the page";
      Reload],
     inr [a_file]).
Proof.
  apply (space_mismatch_effects (browser (answering other_space)) space
           other_space "/space").
  - reflexivity.
  - reflexivity.
  - discriminate.
  - reflexivity.
  - simpl; lia.
  - reflexivity.
  - discriminate.
Defined.

(** Where [location] does not exist, the unguarded [location.reload()] of
    [fetchFileList] throws. *)
Example mismatch_without_location :
  fetchFileList (headless (answering other_space)) space
  = ([Fetch "http://host/fs" {| method := "GET"; init_headers := None; body := None |};
      FlushCaches;
      Alert "Space folder path different on server, reloading the page"],
     inl (Js.ReferenceError "location is not defined")).
Proof. reflexivity. Qed.

(** The list of the expected space comes back without any other effect. *)
Example matching_list :
  fetchFileList (browser (answering (respond 200 "OK" false [("x-space-path", "/space")])))
    space
  = ([Fetch "http://host/fs" {| method := "GET"; init_headers := None; body := None |}],
     inr [a_file]).
Proof. reflexivity. Qed.

(** C3 fails as stated: outside a browser a 401 restarts nothing. *)
Lemma unauthorized_without_location :
  status denied = 401
  /\ deleteFile (headless (answering denied)) space "a.md"
     = ([Fetch "http://host/fs/a.md"
           {| method := "DELETE"; init_headers := None; body := None |}],
        inl (Js.Error "Unauthorized"))
  /\ reloads (trace (deleteFile (headless (answering denied)) space "a.md")) = 0%nat.
Proof. repeat split. Qed.

(** The amended C3 on a write answered through a redirection, in a browser. *)
Lemma unauthorized_restarts_witness :
  outcome (perform (browser (answering redirected_ok)) space
             (WriteFile "a.md" utf8 (Text "hello") None None))
  = inl (Js.Error "Unauthorized")
  /\ reloads (trace (perform (browser (answering redirected_ok)) space
                       (WriteFile "a.md" utf8 (Text "hello") None None)))
     = 1%nat
  /\ exists u o,
      trace (perform (browser (answering redirected_ok)) space
               (WriteFile "a.md" utf8 (Text "hello") None None))
      = [Fetch u o; Reload].
Proof.
  apply (unauthorized_restarts (browser (answering redirected_ok)) space redirected_ok
           (WriteFile "a.md" utf8 (Text "hello") None None)).
  - reflexivity.
  - right; reflexivity.
  - discriminate.
Defined.

(** C4 on a response without headers. *)
Lemma responseToMeta_defaults_witness :
  size (responseToMeta "a.md" bare) = Js.Int 0
  /\ lastModified (responseToMeta "a.md" bare) = Js.Int 0
  /\ perm (responseToMeta "a.md" bare) = "rw"%string.
Proof.
  destruct (responseToMeta_defaults "a.md" bare) as (_ & Hs & Hl & Hp).
  split; [apply Hs; reflexivity |].
  split; [apply Hl; reflexivity | apply Hp; reflexivity].
Defined.

Example responseToMeta_with_meta :
  responseToMeta "a.md" with_meta
  = {| name := "a.md"; size := Js.Int 5; contentType := Some "text/markdown"%string;
       lastModified := Js.Int 1700000000000; perm := "admin" |}.
Proof. reflexivity. Qed.

(** C5 fails as stated: the timestamp 0 is supplied and no header is sent. *)
Lemma zero_timestamp_not_sent :
  requests (trace (writeFile (browser (answering bare)) space "a.md" utf8
                     (Text "hello") None (Some (Js.Int 0))))
  = [("http://host/fs/a.md"%string,
      {| method := "PUT";
         init_headers := Some {["Content-Type" := "application/octet-stream"]};
         body := Some (Text "hello") |})].
Proof. reflexivity. Qed.

(** The amended C5 on a write with a timestamp, by a client with a login. *)
Lemma write_request_headers_witness :
  exists (o : RequestInit) (h : gmap string string),
    requests (trace (writeFile (browser (answering bare)) space_with_login "a.md" utf8
                       (Text "hello") None (Some (Js.Int 1700000000000))))
    = [("http://host/fs/a.md"%string, o)]
    /\ method o = "PUT"%string
    /\ init_headers o = Some h
    /\ h !! "Content-Type" = Some "application/octet-stream"%string
    /\ h !! "X-Last-Modified" = Some "1700000000000"%string.
Proof.
  apply (write_request_headers (browser (answering bare)) space_with_login "a.md" utf8
           (Text "hello") None (Some (Js.Int 1700000000000))
           (Some (Text "hello"), Text "hello")).
  reflexivity.
Defined.

(** C6 fails as stated: a 404 at the end of a redirection is an
    authentication failure, for a read and for a stat. *)
Lemma redirected_404_is_unauthorized :
  status redirected_missing = 404
  /\ outcome (readFile (browser (answering redirected_missing)) space "a.md" utf8)
     = inl (Js.Error "Unauthorized")
  /\ outcome (getFileMeta (browser (answering redirected_missing)) space "a.md")
     = inl (Js.Error "Unauthorized").
Proof. repeat split. Qed.

(** The amended C6 on a plain 404. *)
Lemma not_found_on_404_witness :
  (forall encoding : FileEncoding,
      outcome (readFile (browser (answering missing)) space "a.md" encoding)
      = inl (Js.Error "Page not found"))
  /\ outcome (getFileMeta (browser (answering missing)) space "a.md")
     = inl (Js.Error "File not found").
Proof.
  apply (not_found_on_404 (browser (answering missing)) space "a.md" missing);
    reflexivity.
Defined.

(** C7 fails as stated: a redirected 200 is not a success, and a 401 is not
    reported as a failed delete. *)
Lemma delete_rejected_by_transport :
  (status redirected_ok = 200
   /\ outcome (deleteFile (browser (answering redirected_ok)) space "a.md")
      = inl (Js.Error "Unauthorized"))
  /\ (status denied <> 200
      /\ outcome (deleteFile (browser (answering denied)) space "a.md")
         = inl (Js.Error "Unauthorized")).
Proof. repeat split. discriminate. Qed.

(** The amended C7 on a 410. *)
Lemma delete_outcome_witness :
  outcome (deleteFile (browser (answering gone)) space "a.md")
  = inl (Js.Error "Failed to delete file: Gone").
Proof.
  apply (delete_outcome (browser (answering gone)) space "a.md" gone).
  - reflexivity.
  - discriminate.
  - reflexivity.
  - discriminate.
Defined.

Example delete_ok :
  deleteFile (browser (answering bare)) space "a.md"
  = ([Fetch "http://host/fs/a.md"
        {| method := "DELETE"; init_headers := None; body := None |}],
     inr tt).
Proof. reflexivity. Qed.

(** C8 on a request whose caller set a cookie and another header, and on
    the request of a stat. *)
Lemma cookie_on_every_request_witness :
  (exists (o : RequestInit) (h : gmap string string),
      requests (trace (authenticatedFetch (browser (answering bare)) space_with_login
                         "http://host/fs/a.md"
                         {| method := "GET";
                            init_headers := Some {["cookie" := "mine"; "x" := "y"]};
                            body := None |}))
      = [("http://host/fs/a.md"%string, o)]
      /\ init_headers o = Some h
      /\ h !! "cookie" = Some "auth=dXNlcjpwdw=="%string
      /\ (forall k : string, k <> "cookie"%string ->
            h !! k = ({["cookie" := "mine"; "x" := "y"]} : gmap string string) !! k)
      /\ method o = "GET"%string /\ body o = None)
  /\ Forall (fun r => exists h : gmap string string,
                 init_headers (snd r) = Some h
                 /\ h !! "cookie" = Some "auth=dXNlcjpwdw=="%string)
       (requests (trace (perform (browser (answering bare)) space_with_login
                           (GetFileMeta "a.md")))).
Proof.
  destruct (proj1 (cookie_on_every_request (browser (answering bare)) space_with_login)
              "user" "pw" eq_refl eq_refl ltac:(discriminate) ltac:(discriminate))
    as [Hfetch Hop].
  split.
  - exact (Hfetch "http://host/fs/a.md"
             {| method := "GET";
                init_headers := Some {["cookie" := "mine"; "x" := "y"]};
                body := None |}).
  - exact (Hop (GetFileMeta "a.md")).
Defined.

(** Without credentials the request goes out as the caller made it. *)
Example no_cookie_without_login :
  requests (trace (authenticatedFetch (browser (answering bare)) space
                     "http://host/fs/a.md"
                     {| method := "GET";
                        init_headers := Some {["cookie" := "mine"]};
                        body := None |}))
  = [("http://host/fs/a.md"%string,
      {| method := "GET"; init_headers := Some {["cookie" := "mine"]}; body := None |})].
Proof. reflexivity. Qed.

(** C9 on a read, a write and a stat that succeed. *)
Lemma returned_name_is_argument_witness :
  exists (d : FileData) (m m' m'' : FileMeta),
    outcome (readFile (browser (answering with_meta)) space "notes/a.md" utf8)
    = inr (d, m)
    /\ outcome (writeFile (browser (answering with_meta)) space "notes/a.md" utf8
                  (Text "hello") None None) = inr m'
    /\ outcome (getFileMeta (browser (answering with_meta)) space "notes/a.md") = inr m''
    /\ name m = "notes/a.md"%string /\ name m' = "notes/a.md"%string
    /\ name m'' = "notes/a.md"%string.
Proof.
  destruct (returned_name_is_argument (browser (answering with_meta)) space "notes/a.md")
    as (Hr & Hw & Hs).
  eexists _, _, _, _.
  split; [reflexivity |]. split; [reflexivity |]. split; [reflexivity |].
  split; [eapply (Hr utf8); reflexivity |].
  split; [eapply (Hw utf8 (Text "hello") None None); reflexivity |].
  eapply Hs; reflexivity.
Defined.

(** C10 on a permission that is neither [rw] nor [ro], and on none. *)
Lemma responseToMeta_perm_verbatim_witness :
  get (headers with_meta) "X-Permission" = Some "admin"%string
  /\ perm (responseToMeta "a.md" with_meta) = "admin"%string
  /\ perm (responseToMeta "a.md" bare) = "rw"%string.
Proof.
  split; [reflexivity |]. split.
  - apply (proj1 (responseToMeta_perm_verbatim "a.md" with_meta) "admin");
      [reflexivity | discriminate].
  - apply (proj2 (responseToMeta_perm_verbatim "a.md" bare)). left; reflexivity.
Defined.

(** ** Numbers written and read back *)

Module NumberFacts.
Import Js.

Lemma code_range (c : ascii) : 0 <= code c < 256.
Proof.
  unfold code. pose proof (N_ascii_bounded c). lia.
Qed.


Lemma chr_code (c : ascii) : chr (code c) = c.
Proof. unfold code, chr. rewrite N2Z.id. apply ascii_N_embedding. Qed.

























Lemma chars_str (l : list ascii) : chars (str l) = l.
Proof. apply list_ascii_of_string_of_list_ascii. Qed.

Lemma str_chars (s : string) : str (chars s) = s.
Proof. apply string_of_list_ascii_of_string. Qed.












End NumberFacts.



(** ** Base64 read back *)

Module Base64Facts.
Import Js Sextets.

Lemma in_byte_values (a : Z) : 0 <= a < 256 -> In a byte_values.
Proof.
  intros H. unfold byte_values. apply in_map_iff. exists (Z.to_nat a).
  split; [lia | apply in_seq; lia].
Qed.

(** A check over all bytes, or all pairs of bytes, by running it. *)
Lemma all_bytes (p : Z -> bool) :
  forallb p byte_values = true -> forall a, 0 <= a < 256 -> p a = true.
Proof.
  intros H a Ha. rewrite forallb_forall in H. apply H, in_byte_values, Ha.
Qed.

Lemma all_byte_pairs (p : Z -> Z -> bool) :
  forallb (fun a => forallb (p a) byte_values) byte_values = true ->
  forall a b, 0 <= a < 256 -> 0 <= b < 256 -> p a b = true.
Proof.
  intros H a b Ha Hb.
  pose proof (all_bytes _ H a Ha) as H'. cbv beta in H'.
  exact (all_bytes _ H' b Hb).
Qed.

Lemma sextet_ranges (a b : Z) :
  0 <= a < 256 -> 0 <= b < 256 ->
  is_sextet (s1 a) && is_sextet (s2 a b) && is_sextet (s3 a b) && is_sextet (s4 a)
  && is_sextet (Z.shiftl (Z.land a 3) 4) && is_sextet (Z.shiftl (Z.land a 15) 2) = true.
Proof.
  apply (all_byte_pairs (fun a b =>
    is_sextet (s1 a) && is_sextet (s2 a b) && is_sextet (s3 a b) && is_sextet (s4 a)
    && is_sextet (Z.shiftl (Z.land a 3) 4) && is_sextet (Z.shiftl (Z.land a 15) 2))).
  vm_compute. reflexivity.
Qed.

Lemma first_byte (a b : Z) :
  0 <= a < 256 -> 0 <= b < 256 ->
  Z.lor (Z.shiftl (s1 a) 2) (Z.shiftr (s2 a b) 4) = a
  /\ Z.lor (Z.shiftl (s1 a) 2) (Z.shiftr (Z.shiftl (Z.land a 3) 4) 4) = a.
Proof.
  intros Ha Hb.
  pose proof (all_byte_pairs (fun a b =>
    (Z.lor (Z.shiftl (s1 a) 2) (Z.shiftr (s2 a b) 4) =? a)
    && (Z.lor (Z.shiftl (s1 a) 2) (Z.shiftr (Z.shiftl (Z.land a 3) 4) 4) =? a))
    ltac:(vm_compute; reflexivity) a b Ha Hb) as H.
  cbv beta in H. apply andb_true_iff in H as [H1 H2].
  apply Z.eqb_eq in H1, H2. split; assumption.
Qed.

(** The middle byte depends on the first byte only through bits that the
    mask removes. *)
Lemma second_byte_high (a b : Z) :
  0 <= a < 256 -> 0 <= b < 256 ->
  Z.shiftl (Z.land (s2 a b) 15) 4 = Z.shiftl (Z.shiftr b 4) 4.
Proof.
  intros Ha Hb.
  pose proof (all_byte_pairs (fun a b =>
    Z.shiftl (Z.land (s2 a b) 15) 4 =? Z.shiftl (Z.shiftr b 4) 4)
    ltac:(vm_compute; reflexivity) a b Ha Hb) as H.
  apply Z.eqb_eq in H. exact H.
Qed.

Lemma second_byte (b c : Z) :
  0 <= b < 256 -> 0 <= c < 256 ->
  Z.lor (Z.shiftl (Z.shiftr b 4) 4) (Z.shiftr (s3 b c) 2) = b
  /\ Z.lor (Z.shiftl (Z.shiftr b 4) 4) (Z.shiftr (Z.shiftl (Z.land b 15) 2) 2) = b.
Proof.
  intros Hb Hc.
  pose proof (all_byte_pairs (fun b c =>
    (Z.lor (Z.shiftl (Z.shiftr b 4) 4) (Z.shiftr (s3 b c) 2) =? b)
    && (Z.lor (Z.shiftl (Z.shiftr b 4) 4) (Z.shiftr (Z.shiftl (Z.land b 15) 2) 2) =? b))
    ltac:(vm_compute; reflexivity) b c Hb Hc) as H.
  cbv beta in H. apply andb_true_iff in H as [H1 H2].
  apply Z.eqb_eq in H1, H2. split; assumption.
Qed.

Lemma third_byte (b c : Z) :
  0 <= b < 256 -> 0 <= c < 256 ->
  Z.lor (Z.shiftl (Z.land (s3 b c) 3) 6) (s4 c) = c.
Proof.
  intros Hb Hc.
  pose proof (all_byte_pairs (fun b c =>
    Z.lor (Z.shiftl (Z.land (s3 b c) 3) 6) (s4 c) =? c)
    ltac:(vm_compute; reflexivity) b c Hb Hc) as H.
  apply Z.eqb_eq in H. exact H.
Qed.

(** The alphabet read back. *)
Lemma char_sextet_sextet_char (n : Z) :
  is_sextet n = true -> char_sextet (sextet_char n) = Some n.
Proof.
  unfold is_sextet. rewrite andb_true_iff, Z.leb_le, Z.ltb_lt. intros H.
  replace n with (Z.of_nat (Z.to_nat n)) by lia.
  assert (Hk : (Z.to_nat n < 64)%nat) by lia.
  generalize dependent (Z.to_nat n). clear. intros k Hk.
  do 64 (destruct k as [| k]; [reflexivity |]). lia.
Qed.


Lemma whitespace_no_sextet (c : ascii) :
  is_ascii_whitespace c = true -> char_sextet c = None.
Proof.
  destruct c as [[] [] [] [] [] [] [] []]; intros H;
    try reflexivity; vm_compute in H; discriminate H.
Qed.

(** Induction three bytes at a time. *)
Lemma three_ind (P : list Z -> Prop) :
  P [] -> (forall a, P [a]) -> (forall a b, P [a; b]) ->
  (forall a b c r, P r -> P (a :: b :: c :: r)) ->
  forall l, P l.
Proof.
  intros H0 H1 H2 H3 l.
  assert (H : P l /\ (forall a, P (a :: l)) /\ (forall a b, P (a :: b :: l))).
  { induction l as [| x l (IH0 & IH1 & IH2)]; [auto |].
    split; [apply IH1 |]. split; [intros a; apply IH2 |].
    intros a b. apply H3, IH0. }
  apply H.
Qed.

(** The encoding of bytes is sextet characters that decode to the bytes,
    followed by at most two padding characters, four characters for every
    three bytes. *)
Lemma base64_encode_shape (l : list Z) :
  Forall (fun a => 0 <= a < 256) l ->
  exists (x pad : list ascii) (ns : list Z),
    base64_encode l = x ++ pad
    /\ (pad = [] \/ pad = ["="%char] \/ pad = ["="%char; "="%char])
    /\ sextets x = Some ns
    /\ base64_decode ns = Some l
    /\ Z.of_nat (length (x ++ pad)) mod 4 = 0.
Proof.
  induction l as [| a | a b | a b c r IH] using three_ind; intros Hl.
  - exists [], [], []. repeat split. left; reflexivity.
  - inversion_clear Hl as [| ? ? Ha _].
    pose proof (sextet_ranges a a Ha Ha) as Hs. rewrite !andb_true_iff in Hs.
    destruct Hs as [[[[[Hs1 _] _] _] Hs2] _].
    exists [sextet_char (s1 a); sextet_char (Z.shiftl (Z.land a 3) 4)],
           ["="%char; "="%char], [s1 a; Z.shiftl (Z.land a 3) 4].
    split; [reflexivity |]. split; [auto |].
    split; [simpl; rewrite !char_sextet_sextet_char by assumption; reflexivity |].
    split; [| reflexivity].
    simpl. f_equal. f_equal. apply (first_byte a a Ha Ha).
  - inversion_clear Hl as [| ? ? Ha Hl']. inversion_clear Hl' as [| ? ? Hb _].
    pose proof (sextet_ranges a b Ha Hb) as Hs. rewrite !andb_true_iff in Hs.
    destruct Hs as [[[[[Hs1 Hs2] _] _] _] _].
    pose proof (sextet_ranges b b Hb Hb) as Hs. rewrite !andb_true_iff in Hs.
    destruct Hs as [_ Hs3].
    exists [sextet_char (s1 a); sextet_char (s2 a b);
            sextet_char (Z.shiftl (Z.land b 15) 2)],
           ["="%char], [s1 a; s2 a b; Z.shiftl (Z.land b 15) 2].
    split; [reflexivity |]. split; [auto |].
    split; [simpl; rewrite !char_sextet_sextet_char by assumption; reflexivity |].
    split; [| reflexivity].
    simpl. f_equal. f_equal; [apply (first_byte a b Ha Hb) |]. f_equal.
    rewrite (second_byte_high a b Ha Hb). apply (second_byte b b Hb Hb).
  - inversion_clear Hl as [| ? ? Ha Hl']. inversion_clear Hl' as [| ? ? Hb Hl''].
    inversion_clear Hl'' as [| ? ? Hc Hr].
    destruct (IH Hr) as (x & pad & ns & Henc & Hpad & Hsx & Hdec & Hlen).
    pose proof (sextet_ranges a b Ha Hb) as Hs. rewrite !andb_true_iff in Hs.
    destruct Hs as [[[[[Hs1 Hs2] _] _] _] _].
    pose proof (sextet_ranges b c Hb Hc) as Hs. rewrite !andb_true_iff in Hs.
    destruct Hs as [[[[[_ _] Hs3] _] _] _].
    pose proof (sextet_ranges c c Hc Hc) as Hs. rewrite !andb_true_iff in Hs.
    destruct Hs as [[[[[_ _] _] Hs4] _] _].
    exists (sextet_char (s1 a) :: sextet_char (s2 a b) :: sextet_char (s3 b c)
            :: sextet_char (s4 c) :: x), pad, (s1 a :: s2 a b :: s3 b c :: s4 c :: ns).
    split; [change (base64_encode (a :: b :: c :: r))
              with (sextet_char (s1 a) :: sextet_char (s2 a b) :: sextet_char (s3 b c)
                    :: sextet_char (s4 c) :: base64_encode r);
            rewrite Henc; reflexivity |].
    split; [exact Hpad |].
    split; [simpl; rewrite !char_sextet_sextet_char, Hsx by assumption; reflexivity |].
    split.
    + change (base64_decode (s1 a :: s2 a b :: s3 b c :: s4 c :: ns))
        with (match base64_decode ns with
              | Some bs =>
                  Some (Z.lor (Z.shiftl (s1 a) 2) (Z.shiftr (s2 a b) 4)
                        :: Z.lor (Z.shiftl (Z.land (s2 a b) 15) 4) (Z.shiftr (s3 b c) 2)
                        :: Z.lor (Z.shiftl (Z.land (s3 b c) 3) 6) (s4 c)
                        :: bs)
              | None => None
              end).
      rewrite Hdec, (proj1 (first_byte a b Ha Hb)), (second_byte_high a b Ha Hb),
        (proj1 (second_byte b c Hb Hc)), (third_byte b c Hb Hc). reflexivity.
    + simpl length in *. rewrite !Nat2Z.inj_succ.
      replace (Z.succ (Z.succ (Z.succ (Z.succ (Z.of_nat (length (x ++ pad)))))))
        with (Z.of_nat (length (x ++ pad)) + 1 * 4) by lia.
      rewrite Z.mod_add by lia. exact Hlen.
Qed.


Lemma sextets_chars (x : list ascii) (ns : list Z) :
  sextets x = Some ns -> Forall (fun c => char_sextet c <> None) x.
Proof.
  revert ns. induction x as [| c x IH]; intros ns H; [constructor |].
  simpl in H. destruct (char_sextet c) eqn:Hc; [| discriminate].
  destruct (sextets x) eqn:Hx; [| discriminate].
  constructor; [congruence | eapply IH; reflexivity].
Qed.

(** The three cases of [strip_padding], by comparison of characters. *)
Lemma strip_padding_match (m l : list ascii) :
  match m with
  | "="%char :: "="%char :: r => rev r
  | "="%char :: r => rev r
  | _ => l
  end
  = match m with
    | [] => l
    | c :: r =>
        if Ascii.eqb c "=" then
          match r with
          | c' :: r' => if Ascii.eqb c' "=" then rev r' else rev r
          | [] => rev r
          end
        else l
    end.
Proof.
  destruct m as [| c r]; [reflexivity |].
  destruct c as [[] [] [] [] [] [] [] []]; try reflexivity.
  destruct r as [| c' r']; [reflexivity |].
  destruct c' as [[] [] [] [] [] [] [] []]; reflexivity.
Qed.

Lemma head_not_padding (x : list ascii) :
  Forall (fun c => char_sextet c <> None) x ->
  match rev x with
  | c :: _ => Ascii.eqb c "=" = false
  | [] => True
  end.
Proof.
  intros H. apply Forall_rev in H. destruct (rev x) as [| c r]; [exact I |].
  inversion_clear H as [| ? ? Hc _].
  destruct (Ascii.eqb_spec c "=") as [-> | _]; [| reflexivity].
  exfalso. apply Hc. reflexivity.
Qed.

Lemma strip_padding_encoded (x pad : list ascii) :
  Forall (fun c => char_sextet c <> None) x ->
  pad = [] \/ pad = ["="%char] \/ pad = ["="%char; "="%char] ->
  Z.of_nat (length (x ++ pad)) mod 4 = 0 ->
  strip_padding (x ++ pad) = x.
Proof.
  intros Hx Hpad Hlen. unfold strip_padding. rewrite Hlen. simpl.
  rewrite strip_padding_match, rev_app_distr.
  pose proof (head_not_padding x Hx) as Hh.
  destruct Hpad as [-> | [-> | ->]]; simpl.
  - rewrite app_nil_r. destruct (rev x) as [| c r]; [reflexivity |].
    rewrite Hh. reflexivity.
  - destruct (rev x) as [| c r] eqn:Hr.
    + rewrite <- Hr. apply rev_involutive.
    + rewrite Hh, <- Hr. apply rev_involutive.
  - apply rev_involutive.
Qed.

Lemma no_whitespace_encoded (x pad : list ascii) :
  Forall (fun c => char_sextet c <> None) x ->
  pad = [] \/ pad = ["="%char] \/ pad = ["="%char; "="%char] ->
  List.filter (fun c => negb (is_ascii_whitespace c)) (x ++ pad) = x ++ pad.
Proof.
  intros Hx Hpad. rewrite List.filter_app.
  f_equal.
  - induction Hx as [| c x Hc Hx IH]; [reflexivity |]. simpl.
    destruct (is_ascii_whitespace c) eqn:Hw.
    + apply whitespace_no_sextet in Hw. contradiction.
    + simpl. f_equal. exact IH.
  - destruct Hpad as [-> | [-> | ->]]; reflexivity.
Qed.

Lemma codes_are_bytes (l : list ascii) : Forall (fun a => 0 <= a < 256) (map code l).
Proof.
  apply Forall_map, Forall_forall. intros c _. apply NumberFacts.code_range.
Qed.

(** [atob] undoes [btoa]. *)
Lemma atob_btoa (s : string) : atob (btoa s) = inr s.
Proof.
  unfold atob, btoa. rewrite NumberFacts.chars_str.
  destruct (base64_encode_shape (map code (chars s)) (codes_are_bytes _))
    as (x & pad & ns & -> & Hpad & Hsx & Hdec & Hlen).
  pose proof (sextets_chars x ns Hsx) as Hx.
  rewrite (no_whitespace_encoded x pad Hx Hpad).
  rewrite (strip_padding_encoded x pad Hx Hpad Hlen).
  cbv zeta. rewrite Hsx, Hdec. f_equal.
  rewrite map_map.
  rewrite (map_ext _ (fun c => c)) by apply NumberFacts.chr_code.
  rewrite map_id. apply NumberFacts.str_chars.
Qed.

Lemma btoa_injective (s t : string) : btoa s = btoa t -> s = t.
Proof.
  intros H. apply (f_equal atob) in H. rewrite !atob_btoa in H. congruence.
Qed.

End Base64Facts.

(** ** Names in URLs *)

Module UriFacts.
Import Js Unescape.






Lemma append_cancel (p s t : string) : p +:+ s = p +:+ t -> s = t.
Proof.
  induction p as [| c p IH]; simpl; [auto |]. intros H. injection H as H. auto.
Qed.

End UriFacts.

(** ** The cookie and the URLs *)

Lemma cookie_value (this : HttpSpacePrimitives) (o : RequestInit)
    (usr pw : string) (h : gmap string string) :
  user this = Some usr -> password this = Some pw ->
  usr <> ""%string -> pw <> ""%string ->
  init_headers (with_auth_cookie this o) = Some h ->
  h !! "cookie" = Some ("auth=" +:+ Js.btoa (usr +:+ ":" +:+ pw)).
Proof.
  intros Hu Hp Hune Hpne Hh.
  rewrite (with_auth_cookie_sets this usr pw o Hu Hp Hune Hpne) in Hh.
  injection Hh as <-. apply lookup_insert_eq.
Qed.

(** X12: two requests that carry the same cookie come from clients with the
    same text [user:password]: the cookie tells the credentials apart. *)
Theorem cookie_identifies_credentials (this this' : HttpSpacePrimitives)
    (o o' : RequestInit) (usr pw usr' pw' : string) (h h' : gmap string string) :
  user this = Some usr -> password this = Some pw ->
  usr <> ""%string -> pw <> ""%string ->
  user this' = Some usr' -> password this' = Some pw' ->
  usr' <> ""%string -> pw' <> ""%string ->
  init_headers (with_auth_cookie this o) = Some h ->
  init_headers (with_auth_cookie this' o') = Some h' ->
  h !! "cookie" = h' !! "cookie" ->
  usr +:+ ":" +:+ pw = usr' +:+ ":" +:+ pw'.
Proof.
  intros Hu Hp Hune Hpne Hu' Hp' Hune' Hpne' Hh Hh' Heq.
  rewrite (cookie_value this o usr pw h), (cookie_value this' o' usr' pw' h') in Heq
    by assumption.
  injection Heq as Heq. apply UriFacts.append_cancel in Heq.
  apply Base64Facts.btoa_injective, Heq.
Qed.

(** X13: the cookie of a request is [auth=] followed by text that [atob]
    decodes to [user:password]. *)
Theorem cookie_decodes_to_credentials (this : HttpSpacePrimitives) (o : RequestInit)
    (usr pw : string) (h : gmap string string) :
  user this = Some usr -> password this = Some pw ->
  usr <> ""%string -> pw <> ""%string ->
  init_headers (with_auth_cookie this o) = Some h ->
  exists v : string,
    h !! "cookie" = Some ("auth=" +:+ v)
    /\ Js.atob v = inr (usr +:+ ":" +:+ pw).
Proof.
  intros Hu Hp Hune Hpne Hh. eexists. split.
  - apply (cookie_value this o usr pw h); assumption.
  - apply Base64Facts.atob_btoa.
Qed.



(** ** The further properties, in scenarios *)


(** X2 on a read while the network is down. *)
Lemma network_failure_propagates_witness :
  outcome (perform (browser unreachable) space (ReadFile "a.md" utf8))
  = inl (Js.TypeError "Failed to fetch")
  /\ exists o,
      trace (perform (browser unreachable) space (ReadFile "a.md" utf8))
      = [Fetch "http://host/fs/a.md" o].
Proof.
  apply (network_failure_propagates (browser unreachable) space
           (ReadFile "a.md" utf8) (Js.TypeError "Failed to fetch")).
  - reflexivity.
  - discriminate.
Defined.

(** X3 on a read answered with a 500. *)
Lemma readFile_passes_statuses_witness :
  readFile (browser (answering server_error)) space "a.bin" dataurl
  = ([Fetch "http://host/fs/a.bin"
        {| method := "GET"; init_headers := None; body := None |}],
     inr (Text "data:application/octet-stream;base64,",
          {| name := "a.bin"; size := Js.Int 7; contentType := None;
             lastModified := Js.Int 0; perm := "rw" |})).
Proof.
  apply (readFile_passes_statuses (browser (answering server_error)) space "a.bin"
           dataurl server_error); [reflexivity | | | reflexivity]; discriminate.
Defined.

(** X4 on a write answered with a 404. *)
Lemma writeFile_passes_statuses_witness :
  outcome (writeFile (browser (answering missing)) space "a.md" utf8 (Text "hello")
             None None)
  = inr {| name := "a.md"; size := Js.Int 0; contentType := None;
           lastModified := Js.Int 0; perm := "rw" |}
  /\ exists o,
      trace (writeFile (browser (answering missing)) space "a.md" utf8 (Text "hello")
               None None)
      = [Fetch "http://host/fs/a.md" o].
Proof.
  apply (writeFile_passes_statuses (browser (answering missing)) space "a.md" utf8
           (Text "hello") None None (Some (Text "hello"), Text "hello") missing);
    [reflexivity | reflexivity | discriminate | reflexivity].
Defined.

(** X5 on a file with metadata headers. *)
Lemma read_and_stat_agree_witness :
  exists (d : FileData) (m m' : FileMeta),
    outcome (readFile (browser (answering with_meta)) space "a.md" arraybuffer)
    = inr (d, m)
    /\ outcome (getFileMeta (browser (answering with_meta)) space "a.md") = inr m'
    /\ m = m'.
Proof.
  eexists _, _, _. split; [reflexivity |]. split; [reflexivity |].
  apply (read_and_stat_agree (browser (answering with_meta)) space "a.md" arraybuffer
           with_meta with_meta (ArrayBuffer [])); reflexivity.
Defined.

(** X6 on a client that expects no space path, facing any space. *)
Lemma list_without_mismatch_witness :
  reloads (trace (fetchFileList (browser (answering other_space)) space_with_login))
  = 0%nat
  /\ List.filter is_mismatch_effect
       (trace (fetchFileList (browser (answering other_space)) space_with_login))
     = []
  /\ outcome (fetchFileList (browser (answering other_space)) space_with_login)
     = inr [a_file].
Proof.
  apply (list_without_mismatch (browser (answering other_space)) space_with_login
           other_space); [reflexivity | discriminate | reflexivity |].
  left. reflexivity.
Defined.

(** X7 on a delete that is refused. *)
Lemma restart_at_most_once_witness :
  (reloads (trace (perform (browser (answering denied)) space (DeleteFile "a.md")))
   <= 1)%nat
  /\ List.filter is_mismatch_effect
       (trace (perform (browser (answering denied)) space (DeleteFile "a.md")))
     = [].
Proof.
  destruct (restart_at_most_once (browser (answering denied)) space (DeleteFile "a.md"))
    as [Hr Hm].
  split; [exact Hr | apply Hm; discriminate].
Defined.

(** X8 on text that is not a data URL. *)
Lemma malformed_dataurl_not_sent_witness :
  writeFile (browser (answering bare)) space "a.png" dataurl (Text "hello") None None
  = ([], inl (Js.TypeError "not a data URL")).
Proof.
  apply (malformed_dataurl_not_sent (browser (answering bare)) space "a.png" "hello"
           None None (Js.TypeError "not a data URL")).
  reflexivity.
Defined.




(** X12 on two clients with the same login. *)
Lemma cookie_identifies_credentials_witness :
  ("user" +:+ ":" +:+ "pw" = "user" +:+ ":" +:+ "pw")%string.
Proof.
  apply (cookie_identifies_credentials space_with_login space_with_login
           {| method := "GET"; init_headers := None; body := None |}
           {| method := "PUT"; init_headers := None; body := None |}
           "user" "pw" "user" "pw"
           {["cookie" := "auth=dXNlcjpwdw=="]} {["cookie" := "auth=dXNlcjpwdw=="]});
    try reflexivity; discriminate.
Defined.

(** A colon in the user name: two pairs of credentials with one cookie. *)
Example colon_in_user_name :
  Js.btoa ("a:b" +:+ ":" +:+ "c") = Js.btoa ("a" +:+ ":" +:+ "b:c").
Proof. reflexivity. Qed.

(** X13 on the login of the scenario. *)
Lemma cookie_decodes_to_credentials_witness :
  exists v : string,
    ({["cookie" := "auth=dXNlcjpwdw=="]} : gmap string string) !! "cookie"
    = Some ("auth=" +:+ v)
    /\ Js.atob v = inr "user:pw"%string.
Proof.
  apply (cookie_decodes_to_credentials space_with_login
           {| method := "GET"; init_headers := None; body := None |}
           "user" "pw" {["cookie" := "auth=dXNlcjpwdw=="]});
    try reflexivity; discriminate.
Defined.


